(** * BlockVote server: the vote-submission pipeline and the results tally

    A shallow embedding of [server.js]: the handler of [POST /api/vote],
    the handler of [GET /api/elections/:id/results], and the two
    administrative handlers that remove an election and deactivate a
    candidate.  Tables are lists of rows, a handler is a function from the
    database and from what the outside world supplies during the call
    (clock readings, random bytes, the outcome of every [db.query]) to a
    response and a new database. *)

From Stdlib Require Import ZArith QArith Qround List String Ascii Bool Lia.
From Stdlib.Strings Require Import Byte.
From Stdlib Require Import DecimalString Permutation.
Import ListNotations.

Local Open Scope string_scope.
Local Open Scope list_scope.
Local Open Scope Z_scope.

(** ** JavaScript values *)

Module Js.

(** The values a property of a parsed JSON body can hold.  [JUndefined] is
    the result of destructuring a property that the body does not have.
    Numbers range over the integers, which is what identifiers are; a
    non-null object or array is carried by its JSON text. *)
Inductive jsval : Type :=
| JUndefined
| JNull
| JBool (b : bool)
| JNum (n : Z)
| JStr (s : string)
| JObj (json : string).

(** ToBoolean. *)
Definition truthy (v : jsval) : bool :=
  match v with
  | JUndefined | JNull => false
  | JBool b => b
  | JNum n => negb (n =? 0)
  | JStr s => negb (String.eqb s "")
  | JObj _ => true
  end.

(** [!v] *)
Definition js_not (v : jsval) : bool := negb (truthy v).

(** [a || b] *)
Definition js_or (a b : jsval) : jsval := if truthy a then a else b.

(** A property is present when the body has it, whatever its value. *)
Definition present (v : jsval) : bool :=
  match v with JUndefined => false | _ => true end.

(** Present and falsy: [null], [false], [0] or the empty string. *)
Definition falsy_value (v : jsval) : bool := present v && negb (truthy v).

(** [typeof v === 'object'] *)
Definition typeof_object (v : jsval) : bool :=
  match v with JNull | JObj _ => true | _ => false end.

(** Number::toString for an integer. *)
Definition number_to_string (n : Z) : string :=
  NilZero.string_of_int (Z.to_int n).

End Js.
Export Js.

(** ** Buffers and their hexadecimal rendering *)

Module Hex.

Definition digits : string := "0123456789abcdef".

Definition hex_digit (n : N) : ascii :=
  match String.get (N.to_nat n) digits with
  | Some c => c
  | None => "0"%char
  end.

Definition byte_to_hex (b : byte) : string :=
  let n := Byte.to_N b in
  String (hex_digit (n / 16)) (String (hex_digit (n mod 16)) EmptyString).

(** [buf.toString('hex')] *)
Fixpoint toString_hex (buf : list byte) : string :=
  match buf with
  | [] => ""
  | b :: rest => (byte_to_hex b ++ toString_hex rest)%string
  end.

End Hex.

(** [crypto.randomBytes(n)]: the first [n] bytes of the entropy source. *)
Definition randomBytes (n : nat) (entropy : nat -> byte) : list byte :=
  map entropy (seq 0 n).

(** [s.slice(0, n)] *)
Definition slice0 (n : nat) (s : string) : string := String.substring 0 n s.

(** The transaction hash built from the random buffer (server.js, lines
    413 to 416): hex text, the ['0x'] marker, and the defensive cut at the
    width of the [transaction_hash] column. *)
Definition transactionHashOf (buf : list byte) : string :=
  let transactionHex := Hex.toString_hex buf in
  let transactionHash := ("0x" ++ transactionHex)%string in
  if (64 <? String.length transactionHash)%nat
  then slice0 64 transactionHash
  else transactionHash.

Definition generateTransactionHash (entropy : nat -> byte) : string :=
  transactionHashOf (randomBytes 31 entropy).

(** ** What the platform computes

    Conversions that belong to the JavaScript engine, to Node's [crypto]
    and to the SQL server are not part of [server.js]; the development is
    parametric in them. *)
Class Platform : Type := {
  (** StringToNumber, when the result is an integer ([None] otherwise). *)
  StringToNumber : string -> option Z;
  (** ToPrimitive of a non-null object or array, from its JSON text. *)
  ObjectToPrimitive : string -> string;
  (** [JSON.stringify] *)
  JSON_stringify : jsval -> string;
  (** [crypto.createHash('sha256').update(s).digest('hex')] *)
  sha256_hex : string -> string;
  (** The integer the SQL server reads a bound value as, when it compares
      it with, or stores it in, an integer column ([None]: SQL NULL). *)
  sql_number : jsval -> option Z
}.

(** ** Rows and tables *)

Record election : Type := {
  e_id : Z;
  e_title : string;
  e_status : string;
  e_start_date : Z;   (* instants are milliseconds since the epoch *)
  e_end_date : Z
}.

Record candidate : Type := {
  c_id : Z;
  c_election_id : Z;
  c_name : string;
  c_party : string;
  c_photo_url : string;
  c_is_active : bool
}.

Record blockchain_transaction : Type := {
  tx_id : Z;
  tx_transaction_hash : string;
  tx_election_id : option Z;
  tx_voter_address : jsval;
  tx_candidate_id : option Z;
  tx_vote_data : string;
  tx_signature : jsval;
  tx_status : string
}.

Record vote : Type := {
  v_id : Z;
  v_transaction_id : Z;
  v_election_id : option Z;
  v_candidate_id : option Z;
  v_voter_id : string;
  v_verification_status : string
}.

(** The object that is serialised into [audit_logs.details]. *)
Inductive audit_details : Type :=
| VoteRejectedDetails
    (reason status : string) (start_date end_date now : Z)
    (candidate_id voter_address : jsval)
| TransactionFailedDetails
    (error code : string) (election_id candidate_id voter_address : jsval)
    (transactionHash : string) (transactionHashLength : Z)
    (vote_data_sample : string) (timestamp : Z).

Record audit_log : Type := {
  a_user_type : string;
  a_action : string;
  a_resource_type : string;
  a_details : audit_details
}.

Record Database : Type := {
  elections : list election;
  candidates : list candidate;
  blockchain_transactions : list blockchain_transaction;
  votes : list vote;
  audit_logs : list audit_log;
  (* AUTO_INCREMENT counters of the two tables the pipeline appends to *)
  next_transaction_id : Z;
  next_vote_id : Z
}.

(** The error object a failed [db.query] hands to its callback. *)
Record SqlError : Type := {
  code : string;
  sqlMessage : option string;
  message : string
}.

(** [err.sqlMessage || err.message] *)
Definition error_text (err : SqlError) : string :=
  match sqlMessage err with
  | Some m => if String.eqb m "" then message err else m
  | None => message err
  end.

(** ** Requests, responses and the outside world *)

(** [const { election_id, candidate_id, voter_address, vote_data, signature }
    = req.body] *)
Record VoteRequest : Type := {
  election_id : jsval;
  candidate_id : jsval;
  voter_address : jsval;
  vote_data : jsval;
  signature : jsval
}.

Record Receipt : Type := {
  transaction_id : Z;
  transactionHash : string;
  timestamp : Z;
  receipt_election_id : jsval;
  verification_code : string
}.

(** A row of the results query.  A DECIMAL with two fractional digits is
    carried as its number of hundredths: 75.00 is [7500]. *)
Record result_row : Type := {
  r_id : Z;
  r_name : string;
  r_party : string;
  r_photo_url : string;
  r_vote_count : Z;
  r_percentage : option Z
}.

Inductive ResponseBody : Type :=
| ErrorBody (error : string) (detail : option string)
| RejectionBody
    (error reason status : string) (start_date end_date now : Z)
| VoteAccepted
    (success : bool) (transaction_hash message : string) (receipt : Receipt)
| ResultsBody (total_votes : Z) (rows : list result_row)
| MessageBody (message : string).

(** What the client observes: a JSON response with its status code, or no
    response because an exception escaped a [db.query] callback. *)
Inductive Response : Type :=
| Json (status : Z) (body : ResponseBody)
| UncaughtException (name : string).

(** Outcome of an audit INSERT, the only [db.query] call the source wraps
    in [try]/[catch]. *)
Inductive LogOutcome : Type :=
| LogStored
| LogFailed (logErr : SqlError)
| LogThrew.

(** Everything one run of the vote handler takes from outside. *)
Record Env : Type := {
  electionQuery : option SqlError;      (* err of the SELECT on elections *)
  request_instant : Z;                  (* new Date(), line 334 *)
  rejectionLog : LogOutcome;            (* INSERT of VOTE_REJECTED *)
  candidateQuery : option SqlError;     (* err of the SELECT on candidates *)
  entropy : nat -> byte;                (* crypto.randomBytes *)
  transactionQuery : option SqlError;   (* err of the ledger INSERT *)
  failure_instant : Z;                  (* new Date(), line 437 *)
  failureLog : LogOutcome;              (* INSERT of TRANSACTION_FAILED *)
  voterHash_instant : Z;                (* Date.now(), line 458 *)
  voteQuery : option SqlError;          (* err of the INSERT on votes *)
  receipt_instant : Z                   (* new Date(), line 473 *)
}.

(** ** SQL expressions *)

Module Sql.

(** [NULLIF(a, b)] *)
Definition NULLIF (a b : Z) : option Z := if a =? b then None else Some a.

(** [ROUND(q, 2)] on an exact value: to the nearest hundredth, halves away
    from zero.  The result is in hundredths. *)
Definition ROUND2 (q : Q) : Z :=
  if Qle_bool 0 q
  then Qfloor (q * (100 # 1) + (1 # 2))
  else - Qfloor ((- q) * (100 # 1) + (1 # 2)).

(** [ROUND(count * 100.0 / NULLIF(total, 0), 2)]; a NULL divisor makes the
    whole expression NULL. *)
Definition percentage (count total : Z) : option Z :=
  match NULLIF total 0 with
  | None => None
  | Some t => Some (ROUND2 (inject_Z count * (100 # 1) / inject_Z t))
  end.

(** [column = 'text'] *)
Definition text_is (column text : string) : bool := String.eqb column text.

Definition option_Z_eqb (a b : option Z) : bool :=
  match a, b with
  | Some x, Some y => x =? y
  | _, _ => false        (* a comparison with NULL is never true *)
  end.

End Sql.

Section Handlers.

Context {platform : Platform}.

(** ** JavaScript operators that need the platform *)

(** [n == v] for a Number [n]. *)
Definition loose_eq_number (n : Z) (v : jsval) : bool :=
  match v with
  | JUndefined | JNull => false
  | JBool b => n =? (if b then 1 else 0)
  | JNum m => n =? m
  | JStr s =>
      match StringToNumber s with Some m => n =? m | None => false end
  | JObj o =>
      match StringToNumber (ObjectToPrimitive o) with
      | Some m => n =? m
      | None => false
      end
  end.

(** [n != v] *)
Definition loose_neq_number (n : Z) (v : jsval) : bool :=
  negb (loose_eq_number n v).

(** [String(v)] *)
Definition js_String (v : jsval) : string :=
  match v with
  | JUndefined => "undefined"
  | JNull => "null"
  | JBool true => "true"
  | JBool false => "false"
  | JNum n => number_to_string n
  | JStr s => s
  | JObj o => ObjectToPrimitive o
  end.

(** [v + n] for a Number [n]: a string when [v] is a string or an object,
    a Number ([None]) for every other [v]. *)
Definition plus_number (v : jsval) (n : Z) : option string :=
  match v with
  | JStr s => Some (s ++ number_to_string n)%string
  | JObj o => Some (ObjectToPrimitive o ++ number_to_string n)%string
  | _ => None
  end.

(** ** Statements *)

(** [column = ?] for an integer column and a bound value. *)
Definition sql_eq (column : option Z) (bound : jsval) : bool :=
  Sql.option_Z_eqb column (sql_number bound).

(** [SELECT status, start_date, end_date FROM elections WHERE id = ?] *)
Definition select_election (db : Database) (id : jsval) : list election :=
  filter (fun e => sql_eq (Some (e_id e)) id) (elections db).

(** [SELECT id, election_id, is_active FROM candidates WHERE id = ?] *)
Definition select_candidate (db : Database) (id : jsval) : list candidate :=
  filter (fun c => sql_eq (Some (c_id c)) id) (candidates db).

(** [INSERT INTO blockchain_transactions (...) VALUES (?, ?, ?, ?, ?, ?,
    'confirmed')]; gives [insertId] and the new database. *)
Definition insert_transaction (db : Database) (hash : string)
    (election_id voter_address candidate_id : jsval) (vote_data : string)
    (signature : jsval) : Z * Database :=
  let insertId := next_transaction_id db in
  let row := {| tx_id := insertId;
                tx_transaction_hash := hash;
                tx_election_id := sql_number election_id;
                tx_voter_address := voter_address;
                tx_candidate_id := sql_number candidate_id;
                tx_vote_data := vote_data;
                tx_signature := signature;
                tx_status := "confirmed" |} in
  (insertId,
   {| elections := elections db;
      candidates := candidates db;
      blockchain_transactions := blockchain_transactions db ++ [row];
      votes := votes db;
      audit_logs := audit_logs db;
      next_transaction_id := insertId + 1;
      next_vote_id := next_vote_id db |}).

(** [INSERT INTO votes (...) VALUES (?, ?, ?, ?, 'verified')] *)
Definition insert_vote (db : Database) (transaction_id : Z)
    (election_id candidate_id : jsval) (voter_id : string) : Z * Database :=
  let insertId := next_vote_id db in
  let row := {| v_id := insertId;
                v_transaction_id := transaction_id;
                v_election_id := sql_number election_id;
                v_candidate_id := sql_number candidate_id;
                v_voter_id := voter_id;
                v_verification_status := "verified" |} in
  (insertId,
   {| elections := elections db;
      candidates := candidates db;
      blockchain_transactions := blockchain_transactions db;
      votes := votes db ++ [row];
      audit_logs := audit_logs db;
      next_transaction_id := next_transaction_id db;
      next_vote_id := insertId + 1 |}).

(** [INSERT INTO audit_logs (user_id, user_type, action, resource_type,
    details) VALUES (NULL, ..)] *)
Definition insert_audit_log (db : Database)
    (user_type action resource_type : string) (details : audit_details)
    : Database :=
  let row := {| a_user_type := user_type;
                a_action := action;
                a_resource_type := resource_type;
                a_details := details |} in
  {| elections := elections db;
     candidates := candidates db;
     blockchain_transactions := blockchain_transactions db;
     votes := votes db;
     audit_logs := audit_logs db ++ [row];
     next_transaction_id := next_transaction_id db;
     next_vote_id := next_vote_id db |}.

(** ** POST /api/vote *)

(** Lines 339 to 345: the reason for which the election takes no vote at
    [now], if there is one. *)
Definition eligibility_reason (now : Z) (election : election)
    : option string :=
  let startDate := e_start_date election in
  let endDate := e_end_date election in
  if now <? startDate then Some "not_started"
  else if now >? endDate then Some "ended"
  else if negb (String.eqb (e_status election) "active") then Some "inactive"
  else None.

(** The body sent at lines 366 and 377. *)
Definition rejection (reason : string) (election : election) (now : Z)
    : Response :=
  Json 400
    (RejectionBody "Election is not currently accepting votes" reason
       (e_status election) (e_start_date election) (e_end_date election) now).

(** Lines 347 to 388: log the rejected attempt, then answer. *)
Definition rejectVote (env : Env) (db : Database) (req : VoteRequest)
    (reason : string) (election : election) (now : Z) : Response * Database :=
  let details :=
    VoteRejectedDetails reason (e_status election) (e_start_date election)
      (e_end_date election) now
      (js_or (candidate_id req) JNull) (js_or (voter_address req) JNull) in
  match rejectionLog env with
  | LogStored =>
      (rejection reason election now,
       insert_audit_log db "voter" "VOTE_REJECTED" "election" details)
  | LogFailed _ => (rejection reason election now, db)
  | LogThrew => (rejection reason election now, db)
  end.

(** Lines 423 to 455: the ledger INSERT failed with [err]. *)
Definition transactionFailed (env : Env) (db : Database) (req : VoteRequest)
    (transactionHash : string) (err : SqlError) : Response * Database :=
  let details :=
    TransactionFailedDetails (error_text err) (code err)
      (election_id req) (candidate_id req) (voter_address req)
      transactionHash (Z.of_nat (String.length transactionHash))
      (if typeof_object (vote_data req)
       then slice0 1000 (JSON_stringify (vote_data req))
       else js_String (vote_data req))
      (failure_instant env) in
  let answer :=
    if String.eqb (code err) "ER_DATA_TOO_LONG"
    then Json 500
           (ErrorBody "Transaction creation failed"
              (Some "Data too long for a column (likely transaction_hash). Server has truncated generated hashes to fit DB limits."))
    else Json 500
           (ErrorBody "Transaction creation failed" (Some (error_text err))) in
  match failureLog env with
  | LogStored =>
      (answer,
       insert_audit_log db "system" "TRANSACTION_FAILED"
         "blockchain_transaction" details)
  | LogFailed _ => (answer, db)
  | LogThrew => (Json 500 (ErrorBody "Transaction creation failed" None), db)
  end.

(** Lines 457 to 486: the ledger row is in, with key [insertId]. *)
Definition recordVote (env : Env) (db : Database) (req : VoteRequest)
    (transactionHash : string) (insertId : Z) : Response * Database :=
  match plus_number (voter_address req) (voterHash_instant env) with
  | None =>
      (* Hash.update is given a Number and throws inside the callback *)
      (UncaughtException "TypeError", db)
  | Some text =>
      let voterHash := String.substring 0 12 (sha256_hex text) in
      match voteQuery env with
      | Some _ => (Json 500 (ErrorBody "Vote recording failed" None), db)
      | None =>
          let (_, db') :=
            insert_vote db insertId (election_id req) (candidate_id req)
              ("ANON_" ++ voterHash)%string in
          let receiptObj :=
            {| transaction_id := insertId;
               transactionHash := transactionHash;
               timestamp := receipt_instant env;
               receipt_election_id := election_id req;
               verification_code := voterHash |} in
          (Json 200
             (VoteAccepted true transactionHash
                "Vote submitted successfully" receiptObj),
           db')
      end
  end.

(** Lines 410 to 422: build the hash and write the ledger row. *)
Definition createTransaction (env : Env) (db : Database) (req : VoteRequest)
    : Response * Database :=
  let transactionHash := generateTransactionHash (entropy env) in
  match transactionQuery env with
  | Some err => transactionFailed env db req transactionHash err
  | None =>
      let (insertId, db') :=
        insert_transaction db transactionHash (election_id req)
          (voter_address req) (candidate_id req)
          (JSON_stringify (vote_data req)) (signature req) in
      recordVote env db' req transactionHash insertId
  end.

(** Lines 390 to 408: the candidate must exist, belong to the election and
    be active. *)
Definition validateCandidate (env : Env) (db : Database) (req : VoteRequest)
    : Response * Database :=
  match candidateQuery env with
  | Some _ => (Json 500 (ErrorBody "Database error" None), db)
  | None =>
      match select_candidate db (candidate_id req) with
      | [] => (Json 400 (ErrorBody "Invalid candidate" None), db)
      | candidate :: _ =>
          if loose_neq_number (c_election_id candidate) (election_id req)
          then (Json 400
                  (ErrorBody "Candidate does not belong to election" None),
                db)
          else if negb (c_is_active candidate)
          then (Json 400 (ErrorBody "Candidate is not active" None), db)
          else createTransaction env db req
      end
  end.

(** Lines 313 to 318: the guard on the five required properties. *)
Definition missing_required (req : VoteRequest) : bool :=
  js_not (election_id req) || js_not (candidate_id req)
  || js_not (voter_address req) || js_not (vote_data req)
  || js_not (signature req).

(** The handler. *)
Definition submitVote (env : Env) (db : Database) (req : VoteRequest)
    : Response * Database :=
  if missing_required req
  then (Json 400 (ErrorBody "Missing required voting data" None), db)
  else
    match electionQuery env with
    | Some _ => (Json 500 (ErrorBody "Database error" None), db)
    | None =>
        match select_election db (election_id req) with
        | [] => (Json 404 (ErrorBody "Election not found" None), db)
        | election :: _ =>
            let now := request_instant env in
            match eligibility_reason now election with
            | Some reason => rejectVote env db req reason election now
            | None => validateCandidate env db req
            end
        end
    end.

(** ** GET /api/elections/:id/results *)

Definition verified (v : vote) : bool :=
  Sql.text_is (v_verification_status v) "verified".

(** [COUNT(v.id)] of the group of candidate [c]: the votes the LEFT JOIN
    attaches to it. *)
Definition vote_count (db : Database) (c : candidate) : Z :=
  Z.of_nat
    (List.length
       (filter (fun v => Sql.option_Z_eqb (Some (c_id c)) (v_candidate_id v)
                         && verified v)
          (votes db))).

(** The derived table [total]: the rows of [votes v2 JOIN candidates c2 ON
    v2.candidate_id = c2.id] that pass the WHERE clause, counted. *)
Definition total_votes (db : Database) (id : jsval) : Z :=
  Z.of_nat
    (List.length
       (flat_map
          (fun v2 =>
             filter
               (fun c2 =>
                  Sql.option_Z_eqb (v_candidate_id v2) (Some (c_id c2))
                  && sql_eq (Some (c_election_id c2)) id
                  && verified v2)
               (candidates db))
          (votes db))).

(** ORDER BY vote_count DESC, as a stable insertion sort (the server leaves
    the order of ties open). *)
Fixpoint insert_desc (r : result_row) (sorted : list result_row)
    : list result_row :=
  match sorted with
  | [] => [r]
  | x :: rest =>
      if r_vote_count x <=? r_vote_count r
      then r :: sorted
      else x :: insert_desc r rest
  end.

Definition order_by_vote_count_desc (rows : list result_row)
    : list result_row :=
  fold_right insert_desc [] rows.

(** The candidates the WHERE clause of the outer query keeps. *)
Definition listed (id : jsval) (c : candidate) : bool :=
  sql_eq (Some (c_election_id c)) id && c_is_active c.

(** The results query.  [candidates.id] is the key of its table, so every
    group of the GROUP BY is one candidate row. *)
Definition results_query (db : Database) (id : jsval) : list result_row :=
  let total := total_votes db id in
  order_by_vote_count_desc
    (map
       (fun c =>
          {| r_id := c_id c;
             r_name := c_name c;
             r_party := c_party c;
             r_photo_url := c_photo_url c;
             r_vote_count := vote_count db c;
             r_percentage := Sql.percentage (vote_count db c) total |})
       (filter (listed id) (candidates db))).

(** The handler; [id] is the path parameter, a string. *)
Definition getResults (queryErr : option SqlError) (db : Database)
    (id : string) : Response :=
  match queryErr with
  | Some _ => Json 500 (ErrorBody "Database error" None)
  | None =>
      let results := results_query db (JStr id) in
      let totalVotes :=
        fold_left (fun sum candidate => sum + r_vote_count candidate)
          results 0 in
      Json 200 (ResultsBody totalVotes results)
  end.

(** ** DELETE /api/elections/:id and DELETE /api/candidates/:id *)

(** Modelled from the spec: the reference from the ledger to the
    elections table.  The tables are declared in blockvote_schema.sql,
    not in server.js.  The specification says of an election that it
    is "never deleted while referenced transactions exist", and of a
    candidate, a transaction and a vote record that they are never
    deleted.  So [DELETE FROM elections WHERE id = ?] is refused while a
    ledger row refers to the election, and removes no row of another
    table.  [fault] is a failure of the statement that has nothing to do
    with the rows, if there is one.  The result is the error, or
    [affectedRows] and the tables after the statement. *)
Definition delete_from_elections (fault : option SqlError) (db : Database)
    (id : jsval) : SqlError + nat * Database :=
  match fault with
  | Some err => inl err
  | None =>
      if existsb (fun tx => sql_eq (tx_election_id tx) id)
           (blockchain_transactions db)
      then
        inl {| code := "ER_ROW_IS_REFERENCED_2";
               sqlMessage := Some "Cannot delete or update a parent row";
               message := "Cannot delete or update a parent row" |}
      else
        let hit := fun e => sql_eq (Some (e_id e)) id in
        inr (List.length (filter hit (elections db)),
             {| elections := filter (fun e => negb (hit e)) (elections db);
                candidates := candidates db;
                blockchain_transactions := blockchain_transactions db;
                votes := votes db;
                audit_logs := audit_logs db;
                next_transaction_id := next_transaction_id db;
                next_vote_id := next_vote_id db |})
  end.

(** The handler (lines 194 to 211): it issues the statement whatever the
    ledger holds, and answers from [err] and [results.affectedRows]. *)
Definition deleteElection (fault : option SqlError) (db : Database)
    (id : string) : Response * Database :=
  match delete_from_elections fault db (JStr id) with
  | inl _ => (Json 500 (ErrorBody "Database error" None), db)
  | inr (affectedRows, db') =>
      if (affectedRows =? 0)%nat
      then (Json 404 (ErrorBody "Election not found" None), db')
      else (Json 200 (MessageBody "Election deleted successfully"), db')
  end.

(** [UPDATE candidates SET is_active = FALSE WHERE id = ?] *)
Definition deleteCandidate (queryErr : option SqlError) (db : Database)
    (id : string) : Response * Database :=
  match queryErr with
  | Some _ => (Json 500 (ErrorBody "Database error" None), db)
  | None =>
      let hit := fun c => sql_eq (Some (c_id c)) (JStr id) in
      let affectedRows := List.length (filter hit (candidates db)) in
      let db' :=
        {| elections := elections db;
           candidates :=
             map (fun c =>
                    if hit c
                    then {| c_id := c_id c;
                            c_election_id := c_election_id c;
                            c_name := c_name c;
                            c_party := c_party c;
                            c_photo_url := c_photo_url c;
                            c_is_active := false |}
                    else c)
               (candidates db);
           blockchain_transactions := blockchain_transactions db;
           votes := votes db;
           audit_logs := audit_logs db;
           next_transaction_id := next_transaction_id db;
           next_vote_id := next_vote_id db |} in
      if (affectedRows =? 0)%nat
      then (Json 404 (ErrorBody "Candidate not found" None), db')
      else (Json 200 (MessageBody "Candidate deleted successfully"), db')
  end.

End Handlers.

(** ** Fields of a request *)

Inductive field : Type :=
| F_election_id | F_candidate_id | F_voter_address | F_vote_data
| F_signature.

Definition get_field (f : field) (req : VoteRequest) : jsval :=
  match f with
  | F_election_id => election_id req
  | F_candidate_id => candidate_id req
  | F_voter_address => voter_address req
  | F_vote_data => vote_data req
  | F_signature => signature req
  end.

(** The body with property [f] taken out. *)
Definition drop_field (f : field) (req : VoteRequest) : VoteRequest :=
  {| election_id :=
       match f with F_election_id => JUndefined | _ => election_id req end;
     candidate_id :=
       match f with F_candidate_id => JUndefined | _ => candidate_id req end;
     voter_address :=
       match f with F_voter_address => JUndefined | _ => voter_address req end;
     vote_data :=
       match f with F_vote_data => JUndefined | _ => vote_data req end;
     signature :=
       match f with F_signature => JUndefined | _ => signature req end |}.

Definition all_present (req : VoteRequest) : bool :=
  present (election_id req) && present (candidate_id req)
  && present (voter_address req) && present (vote_data req)
  && present (signature req).

(** A value [v] for which [v + Date.now()] is a string. *)
Definition textual (v : jsval) : bool :=
  match v with JStr _ | JObj _ => true | _ => false end.

Definition with_rejectionLog (outcome : LogOutcome) (env : Env) : Env :=
  {| electionQuery := electionQuery env;
     request_instant := request_instant env;
     rejectionLog := outcome;
     candidateQuery := candidateQuery env;
     entropy := entropy env;
     transactionQuery := transactionQuery env;
     failure_instant := failure_instant env;
     failureLog := failureLog env;
     voterHash_instant := voterHash_instant env;
     voteQuery := voteQuery env;
     receipt_instant := receipt_instant env |}.

(** Every [db.query] of the run succeeds. *)
Definition storage_answers (env : Env) : Prop :=
  electionQuery env = None /\ candidateQuery env = None
  /\ transactionQuery env = None /\ voteQuery env = None.

Definition Zsum (l : list Z) : Z := fold_right Z.add 0 l.

(** The invalid-input answer of the vote handler. *)
Definition InvalidInput : Response :=
  Json 400 (ErrorBody "Missing required voting data" None).

(** The wrong-election answer of the vote handler. *)
Definition WrongElection : Response :=
  Json 400 (ErrorBody "Candidate does not belong to election" None).

(** round(q, 2 decimal places) in the words of the specification, in
    hundredths, for a non-negative [q]. *)
Definition round_2dp (q : Q) : Z := Qfloor (q * (100 # 1) + (1 # 2)).

(** round(count * 100 / total, 2 decimal places), and no value at all when
    the total is zero. *)
Definition spec_percentage (count total : Z) : option Z :=
  if total =? 0 then None
  else Some (round_2dp (inject_Z (count * 100) / inject_Z total)).

Section Statements.

Context {platform : Platform}.

(** The outcome that claim C1 describes: the response is a success whose
    receipt echoes the hash of a new confirmed ledger row and the submitted
    election, and a new verified vote row points at that ledger row. *)
Definition vote_recorded (db : Database) (req : VoteRequest)
    (out : Response * Database) : Prop :=
  exists (tx : blockchain_transaction) (v : vote) (message : string)
         (receipt : Receipt),
    fst out = Json 200
                (VoteAccepted true (tx_transaction_hash tx) message receipt)
    /\ blockchain_transactions (snd out) = blockchain_transactions db ++ [tx]
    /\ tx_status tx = "confirmed"
    /\ votes (snd out) = votes db ++ [v]
    /\ v_verification_status v = "verified"
    /\ v_transaction_id v = tx_id tx
    /\ transactionHash receipt = tx_transaction_hash tx
    /\ receipt_election_id receipt = election_id req.

(** What claim C1 asks of one submission, with [must] the condition put on
    the five properties of the body. *)
Definition accepted_when (must : VoteRequest -> Prop) (env : Env)
    (db : Database) (req : VoteRequest) : Prop :=
  forall (election : election) (candidate : candidate),
    must req ->
    hd_error (select_election db (election_id req)) = Some election ->
    e_status election = "active" ->
    e_start_date election <= request_instant env <= e_end_date election ->
    hd_error (select_candidate db (candidate_id req)) = Some candidate ->
    loose_eq_number (c_election_id candidate) (election_id req) = true ->
    c_is_active candidate = true ->
    vote_recorded db req (submitVote env db req).

(** Claim C1 as worded: it is enough that the five properties are present. *)
Definition present_submissions_accepted : Prop :=
  forall env db req,
    accepted_when (fun r => all_present r = true) env db req.

(** The verified vote rows of an election. *)
Definition verified_votes_of (db : Database) (id : jsval) : list vote :=
  filter (fun v => sql_eq (v_election_id v) id && verified v) (votes db).

(** The verified vote rows cast for a candidate that the results list. *)
Definition listed_votes_of (db : Database) (id : jsval) : list vote :=
  filter
    (fun v =>
       verified v
       && existsb
            (fun c =>
               listed id c
               && Sql.option_Z_eqb (v_candidate_id v) (Some (c_id c)))
            (candidates db))
    (votes db).

(** The verified votes held by the deactivated candidates of an election,
    counted through the same join as [total_votes]. *)
Definition unlisted_votes (db : Database) (id : jsval) : Z :=
  Zsum
    (map (vote_count db)
       (filter
          (fun c => sql_eq (Some (c_election_id c)) id && negb (c_is_active c))
          (candidates db))).

(** Claim C4 as worded. *)
Definition tally_matches_vote_store : Prop :=
  forall queryErr db id totalVotes rows,
    getResults queryErr db id = Json 200 (ResultsBody totalVotes rows) ->
    totalVotes = Zsum (map r_vote_count rows)
    /\ totalVotes
       = Z.of_nat (List.length (verified_votes_of db (JStr id))).

(** Claim C5 as worded: percentages are taken against [totalVotes]. *)
Definition percentages_against_totalVotes : Prop :=
  forall queryErr db id totalVotes rows,
    getResults queryErr db id = Json 200 (ResultsBody totalVotes rows) ->
    (verified_votes_of db (JStr id) <> [] ->
     forall r, In r rows ->
       r_percentage r
       = Some (round_2dp (inject_Z (r_vote_count r * 100)
                          / inject_Z totalVotes)))
    /\ (verified_votes_of db (JStr id) = [] ->
        forall r, In r rows -> r_percentage r = None).

(** Claim C6 as worded: a candidate of another election always draws the
    wrong-election answer. *)
Definition foreign_candidate_always_wrong_election : Prop :=
  forall env db req candidate rest,
    select_candidate db (candidate_id req) = candidate :: rest ->
    loose_neq_number (c_election_id candidate) (election_id req) = true ->
    fst (submitVote env db req) = WrongElection
    /\ blockchain_transactions (snd (submitVote env db req))
       = blockchain_transactions db.

(** The submission gets as far as the candidate checks. *)
Definition reaches_candidate_checks (env : Env) (db : Database)
    (req : VoteRequest) : Prop :=
  missing_required req = false
  /\ electionQuery env = None
  /\ (exists election rest,
        select_election db (election_id req) = election :: rest
        /\ eligibility_reason (request_instant env) election = None)
  /\ candidateQuery env = None.

(** The ledger holds a transaction that refers to election [id]. *)
Definition referenced (db : Database) (id : jsval) : Prop :=
  exists tx, In tx (blockchain_transactions db)
             /\ sql_eq (tx_election_id tx) id = true.

End Statements.

(** ** A concrete platform and a small database *)

Definition decimal_to_Z (s : string) : option Z :=
  option_map Z.of_int (NilZero.int_of_string s).

(** A stand-in for the digest: 64 hex characters that depend on the end
    of the input. *)
Definition example_digest (s : string) : string :=
  slice0 64
    (Hex.toString_hex (rev (list_byte_of_string s))
     ++ "00000000000000000000000000000000"
     ++ "00000000000000000000000000000000")%string.

(** A platform on which the handlers can be run: decimal texts are read as
    numbers, every object prints as [[object Object]], and the digest is
    [example_digest]. *)
Definition example_platform : Platform :=
  {| StringToNumber := decimal_to_Z;
     ObjectToPrimitive := fun _ => "[object Object]";
     JSON_stringify := fun v =>
       match v with
       | JUndefined => "undefined"
       | JNull => "null"
       | JBool true => "true"
       | JBool false => "false"
       | JNum n => number_to_string n
       | JStr s => s
       | JObj o => o
       end;
     sha256_hex := example_digest;
     sql_number := fun v =>
       match v with
       | JNum n => Some n
       | JStr s => decimal_to_Z s
       | JBool b => Some (if b then 1 else 0)
       | _ => None
       end |}.

Definition presidential : election :=
  {| e_id := 1; e_title := "Presidential Election 2025";
     e_status := "active"; e_start_date := 1000; e_end_date := 2000 |}.

Definition council : election :=
  {| e_id := 2; e_title := "Local Council Election 2025";
     e_status := "draft"; e_start_date := 5000; e_end_date := 6000 |}.

Definition boladra : candidate :=
  {| c_id := 1; c_election_id := 1; c_name := "Shubham Boladra";
     c_party := "Democratic Party"; c_photo_url := ""; c_is_active := true |}.

Definition kasar : candidate :=
  {| c_id := 2; c_election_id := 1; c_name := "Lokesh Kasar";
     c_party := "Republican Party"; c_photo_url := ""; c_is_active := true |}.

Definition kumar : candidate :=
  {| c_id := 3; c_election_id := 2; c_name := "Dr. Rajesh Kumar";
     c_party := "Faculty Union"; c_photo_url := ""; c_is_active := true |}.

Definition db0 : Database :=
  {| elections := [presidential; council];
     candidates := [boladra; kasar; kumar];
     blockchain_transactions := [];
     votes := [];
     audit_logs := [];
     next_transaction_id := 1;
     next_vote_id := 1 |}.

(** A run in which every query succeeds, at an instant inside the window
    of the first election. *)
Definition calm : Env :=
  {| electionQuery := None;
     request_instant := 1500;
     rejectionLog := LogStored;
     candidateQuery := None;
     entropy := fun _ => x2a;
     transactionQuery := None;
     failure_instant := 1501;
     failureLog := LogStored;
     voterHash_instant := 1502;
     voteQuery := None;
     receipt_instant := 1503 |}.

(** A later run, with other random bytes. *)
Definition later : Env :=
  {| electionQuery := None;
     request_instant := 1600;
     rejectionLog := LogStored;
     candidateQuery := None;
     entropy := fun _ => x7c;
     transactionQuery := None;
     failure_instant := 1601;
     failureLog := LogStored;
     voterHash_instant := 1602;
     voteQuery := None;
     receipt_instant := 1603 |}.

Definition ballot (election candidate : Z) : VoteRequest :=
  {| election_id := JNum election;
     candidate_id := JNum candidate;
     voter_address := JStr "0x71C7656EC7ab88b098defB751B7401B5f6d8976F";
     vote_data := JObj "[1]";
     signature := JStr "0xsigned" |}.

(** The ballot for candidate 1 of election 1 with the payload [0]. *)
Definition zero_payload_ballot : VoteRequest :=
  {| election_id := JNum 1;
     candidate_id := JNum 1;
     voter_address := JStr "0x71C7656EC7ab88b098defB751B7401B5f6d8976F";
     vote_data := JNum 0;
     signature := JStr "0xsigned" |}.

(** [db0] after a vote for candidate 2 and a vote for candidate 1, and
    after candidate 2 has then been deactivated. *)
Definition db_after_deactivation : Database :=
  let db1 := snd (@submitVote example_platform calm db0 (ballot 1 2)) in
  let db2 := snd (@submitVote example_platform later db1 (ballot 1 1)) in
  snd (@deleteCandidate example_platform None db2 "2").

(** [db0] after one vote in election 1. *)
Definition db_after_one_vote : Database :=
  snd (@submitVote example_platform calm db0 (ballot 1 1)).

(** * The rest of the server *)

From Stdlib Require Import Sorted.

(** ** Hex text *)

Module HexText.

Definition is_hex_digit (c : ascii) : bool :=
  existsb (Ascii.eqb c) (list_ascii_of_string Hex.digits).

Fixpoint all_chars (p : ascii -> bool) (s : string) : bool :=
  match s with
  | EmptyString => true
  | String c rest => p c && all_chars p rest
  end.

Fixpoint index_of (c : ascii) (l : list ascii) (from : N) : option N :=
  match l with
  | [] => None
  | x :: rest => if Ascii.eqb c x then Some from else index_of c rest (from + 1)
  end.

(** The value of a lowercase hex digit. *)
Definition hex_value (c : ascii) : option N :=
  index_of c (list_ascii_of_string Hex.digits) 0.

(** The buffer that a hex text denotes, two digits to the byte; used to
    read a hash back. *)
Fixpoint fromHex (s : string) : option (list byte) :=
  match s with
  | EmptyString => Some []
  | String _ EmptyString => None
  | String hi (String lo rest) =>
      match hex_value hi, hex_value lo, fromHex rest with
      | Some h, Some l, Some bytes =>
          option_map (fun b => b :: bytes) (Byte.of_N (h * 16 + l))
      | _, _, _ => None
      end
  end.

End HexText.

(** ** The tables between two states *)

(** [new] is [old] with at most one row appended. *)
Definition grows_by_at_most_one {A : Type} (old new : list A) : Prop :=
  new = old \/ exists row, new = old ++ [row].

(** Keys are below the AUTO_INCREMENT counters and are not repeated, and a
    vote row is the only one that points at its ledger row, which exists,
    is confirmed and names the same election and candidate. *)
Definition consistent (db : Database) : Prop :=
  (forall tx, In tx (blockchain_transactions db) ->
              tx_id tx < next_transaction_id db)
  /\ (forall v, In v (votes db) -> v_id v < next_vote_id db)
  /\ NoDup (map tx_id (blockchain_transactions db))
  /\ NoDup (map v_id (votes db))
  /\ NoDup (map v_transaction_id (votes db))
  /\ (forall v, In v (votes db) ->
        exists tx, In tx (blockchain_transactions db)
                   /\ tx_id tx = v_transaction_id v
                   /\ tx_election_id tx = v_election_id v
                   /\ tx_candidate_id tx = v_candidate_id v
                   /\ tx_status tx = "confirmed").

(** ** GET /api/elections: the aggregate columns *)

(** [l LEFT JOIN r]: every row of [l] with each of its matches, or with
    NULL when it has none. *)
Definition left_join {A B : Type} (l : list A) (matches : A -> list B)
    : list (A * option B) :=
  flat_map
    (fun a =>
       match matches a with
       | [] => [(a, None)]
       | bs => map (fun b => (a, Some b)) bs
       end)
    l.

(** [COUNT(DISTINCT column)]: NULLs are not counted. *)
Definition count_distinct (column : list (option Z)) : Z :=
  Z.of_nat
    (List.length
       (nodup Z.eq_dec
          (flat_map (fun x => match x with Some k => [k] | None => [] end)
             column))).

(** The joined rows of the group of election [e] (lines 91 to 97). *)
Definition election_group (db : Database) (e : election)
    : list (election * option candidate * option vote) :=
  left_join
    (left_join [e]
       (fun e =>
          filter (fun c => (e_id e =? c_election_id c) && c_is_active c)
            (candidates db)))
    (fun row =>
       filter
         (fun v => Sql.option_Z_eqb (Some (e_id (fst row))) (v_election_id v)
                   && Sql.text_is (v_verification_status v) "verified")
         (votes db)).

(** [candidate_count] and [vote_count] of the row of election [e]. *)
Definition election_counts (db : Database) (e : election) : Z * Z :=
  let group := election_group db e in
  (count_distinct (map (fun row => option_map c_id (snd (fst row))) group),
   count_distinct (map (fun row => option_map v_id (snd row)) group)).

(** ** POST /api/elections *)

Record ElectionRequest : Type := {
  ne_title : jsval;
  ne_description : jsval;
  ne_type : jsval;
  ne_start_date : jsval;
  ne_end_date : jsval;
  ne_voting_method : jsval;
  ne_privacy_level : jsval;
  ne_requires_verification : jsval
}.

(** What a handler sends to the database: the statement, with the values
    bound to its placeholders. *)
Inductive Statement : Type :=
| InsertElection (params : list jsval)
| UpdateElection (sql : string) (params : list jsval)
| InsertAuditLog
    (user_type action resource_type : string)
    (details : list (string * jsval)).

Inductive CreateBody : Type :=
| CreateError (error : string)
| Created (message : string) (id : Z) (blockchain_address : string).

(** Line 148: ['0x' + crypto.randomBytes(20).toString('hex')]. *)
Definition blockchainAddressOf (buf : list byte) : string :=
  ("0x" ++ Hex.toString_hex buf)%string.

(** The handler, given the random source and what the INSERT comes back
    with: an error or [insertId]. *)
Definition createElection (entropy : nat -> byte) (outcome : SqlError + Z)
    (req : ElectionRequest) : (Z * CreateBody) * list Statement :=
  if js_not (ne_title req) || js_not (ne_start_date req)
     || js_not (ne_end_date req)
  then ((400, CreateError "Missing required fields"), [])
  else
    let blockchainAddress := blockchainAddressOf (randomBytes 20 entropy) in
    let statement :=
      InsertElection
        [ne_title req; ne_description req; ne_type req; ne_start_date req;
         ne_end_date req; ne_voting_method req; ne_privacy_level req;
         ne_requires_verification req; JStr blockchainAddress] in
    match outcome with
    | inl _ => ((500, CreateError "Database error"), [statement])
    | inr insertId =>
        ((201, Created "Election created successfully" insertId
                 blockchainAddress),
         [statement])
    end.

(** ** PATCH /api/admin/elections/:id *)

Record PatchRequest : Type := {
  header_token : option string;     (* req.get('x-admin-token') *)
  query_token : jsval;              (* req.query.token *)
  patch_id : string;                (* req.params.id *)
  patch_status : jsval;
  patch_start_date : jsval;
  patch_end_date : jsval
}.

Record PatchEnv : Type := {
  ADMIN_API_TOKEN : option string;  (* process.env.ADMIN_API_TOKEN *)
  updateQuery : SqlError + nat;     (* err, or results.affectedRows *)
  updateLog : LogOutcome            (* the audit INSERT, outside any try *)
}.

(** [v === s] for a string [s]. *)
Definition strict_eq_string (v : jsval) (s : string) : bool :=
  match v with JStr t => String.eqb t s | _ => false end.

(** [req.get('x-admin-token') || req.query.token] *)
Definition supplied_token (req : PatchRequest) : jsval :=
  js_or (match header_token req with Some s => JStr s | None => JUndefined end)
    (query_token req).

(** The test of line 538. *)
Definition unauthorized (env : PatchEnv) (req : PatchRequest) : bool :=
  match ADMIN_API_TOKEN env with
  | None => true
  | Some configured =>
      String.eqb configured ""
      || negb (strict_eq_string (supplied_token req) configured)
  end.

(** Lines 546 to 559: the assignments and the values bound to them. *)
Definition build_updates (req : PatchRequest) : list string * list jsval :=
  let step (field : jsval) (assignment : string)
           (acc : list string * list jsval) :=
    if present field
    then (fst acc ++ [assignment], snd acc ++ [field])
    else acc in
  step (patch_end_date req) "end_date = ?"
    (step (patch_start_date req) "start_date = ?"
       (step (patch_status req) "status = ?" ([], []))).

Definition patchElection (env : PatchEnv) (req : PatchRequest)
    : Response * list Statement :=
  if unauthorized env req
  then (Json 403 (ErrorBody "Unauthorized" None), [])
  else
    let (updates, params) := build_updates req in
    if (List.length updates =? 0)%nat
    then (Json 400 (ErrorBody "No valid fields to update" None), [])
    else
      let params := params ++ [JStr (patch_id req)] in
      let query :=
        ("UPDATE elections SET " ++ String.concat ", " updates
         ++ " WHERE id = ?")%string in
      let update := UpdateElection query params in
      match updateQuery env with
      | inl _ => (Json 500 (ErrorBody "Database error" None), [update])
      | inr affectedRows =>
          if (affectedRows =? 0)%nat
          then (Json 404 (ErrorBody "Election not found" None), [update])
          else
            let log :=
              InsertAuditLog "admin" "UPDATE_ELECTION" "election"
                [("status", patch_status req);
                 ("start_date", patch_start_date req);
                 ("end_date", patch_end_date req);
                 ("admin_api", JBool true)] in
            match updateLog env with
            | LogThrew => (UncaughtException "Error", [update])
            | _ =>
                (Json 200 (MessageBody "Election updated successfully"),
                 [update; log])
            end
      end.

(** ** GET /api/admin/dashboard *)

Inductive dashboard_key : Type := stats | recentActivity | systemHealth.

Section Dashboard.

Variable Row : Type.

(** [key === 'stats' ? results[0] : results] *)
Inductive DashboardValue : Type :=
| FirstRow (row : option Row)
| AllRows (rows : list Row).

Record DashboardData : Type := {
  d_stats : option DashboardValue;
  d_recentActivity : option DashboardValue;
  d_systemHealth : option DashboardValue
}.

Inductive DashboardReply : Type :=
| DashboardError                        (* 500, 'Database error' *)
| DashboardJson (data : DashboardData). (* 200 *)

Record DashboardState : Type := {
  dashboardData : DashboardData;
  completed : nat;
  replies : list DashboardReply;        (* what was sent on [res] *)
  uncaught : bool                       (* ERR_HTTP_HEADERS_SENT was thrown *)
}.

Definition set_key (key : dashboard_key) (value : DashboardValue)
    (data : DashboardData) : DashboardData :=
  match key with
  | stats =>
      {| d_stats := Some value;
         d_recentActivity := d_recentActivity data;
         d_systemHealth := d_systemHealth data |}
  | recentActivity =>
      {| d_stats := d_stats data;
         d_recentActivity := Some value;
         d_systemHealth := d_systemHealth data |}
  | systemHealth =>
      {| d_stats := d_stats data;
         d_recentActivity := d_recentActivity data;
         d_systemHealth := Some value |}
  end.

(** [res.json] and [res.status(500).json]: the first call sends the
    answer; a call on a response that is already sent throws
    ERR_HTTP_HEADERS_SENT and sends nothing. *)
Definition res_json (reply : DashboardReply) (state : DashboardState)
    : DashboardState :=
  match replies state with
  | [] =>
      {| dashboardData := dashboardData state;
         completed := completed state;
         replies := [reply];
         uncaught := uncaught state |}
  | _ :: _ =>
      {| dashboardData := dashboardData state;
         completed := completed state;
         replies := replies state;
         uncaught := true |}
  end.

(** The callback of one of the three queries (lines 675 to 687).  The
    callback does not catch what [res.json] throws and the server has no
    handler for uncaught exceptions, so after a throw no callback runs. *)
Definition dashboard_callback (state : DashboardState)
    (completion : dashboard_key * (SqlError + list Row)) : DashboardState :=
  if uncaught state then state
  else
    let (key, outcome) := completion in
    match outcome with
    | inl _ => res_json DashboardError state
    | inr results =>
        let value :=
          match key with
          | stats => FirstRow (hd_error results)
          | _ => AllRows results
          end in
        let data := set_key key value (dashboardData state) in
        let completed := S (completed state) in
        let state' :=
          {| dashboardData := data;
             completed := completed;
             replies := replies state;
             uncaught := false |} in
        if (completed =? 3)%nat
        then res_json (DashboardJson data) state'
        else state'
    end.

(** The state when the given callbacks have run, in this order. *)
Definition dashboard_after
    (completions : list (dashboard_key * (SqlError + list Row)))
    : DashboardState :=
  fold_left dashboard_callback completions
    {| dashboardData :=
         {| d_stats := None; d_recentActivity := None;
            d_systemHealth := None |};
       completed := 0;
       replies := [];
       uncaught := false |}.

(** The handler, for the order in which the three queries call back: what
    the client is sent. *)
Definition dashboard
    (completions : list (dashboard_key * (SqlError + list Row)))
    : list DashboardReply :=
  replies (dashboard_after completions).

(** Whether a callback threw. *)
Definition dashboard_throws
    (completions : list (dashboard_key * (SqlError + list Row))) : bool :=
  uncaught (dashboard_after completions).

End Dashboard.

Arguments FirstRow {Row} row.
Arguments AllRows {Row} rows.
Arguments DashboardError {Row}.
Arguments DashboardJson {Row} data.
Arguments dashboard {Row} completions.
Arguments dashboard_throws {Row} completions.

(** ** Auxiliary notions for the statements below *)

(** The number of occurrences of a character, for counting placeholders. *)
Fixpoint count_char (c : ascii) (s : string) : nat :=
  match s with
  | EmptyString => 0
  | String x rest =>
      ((if Ascii.eqb x c then 1 else 0) + count_char c rest)%nat
  end.

(** The query of this completion called back with an error. *)
Definition query_failed {Row : Type}
    (completion : dashboard_key * (SqlError + list Row)) : bool :=
  match snd completion with inl _ => true | inr _ => false end.

(** ** Auxiliary notions for the vote handler *)

Section LedgerNotions.

Context {platform : Platform}.

(** The submission gets as far as the ledger INSERT: it passes the guard,
    the eligibility check and the candidate checks. *)
Definition reaches_ledger_write (env : Env) (db : Database)
    (req : VoteRequest) : Prop :=
  reaches_candidate_checks env db req
  /\ exists candidate rest,
       select_candidate db (candidate_id req) = candidate :: rest
       /\ loose_neq_number (c_election_id candidate) (election_id req)
          = false
       /\ c_is_active candidate = true.

(** The ledger row that the handler writes for [req] in the run [env]. *)
Definition ledger_row (env : Env) (db : Database) (req : VoteRequest)
    : blockchain_transaction :=
  {| tx_id := next_transaction_id db;
     tx_transaction_hash := generateTransactionHash (entropy env);
     tx_election_id := sql_number (election_id req);
     tx_voter_address := voter_address req;
     tx_candidate_id := sql_number (candidate_id req);
     tx_vote_data := JSON_stringify (vote_data req);
     tx_signature := signature req;
     tx_status := "confirmed" |}.

(** The database when only that ledger row has been written. *)
Definition with_ledger_row (env : Env) (db : Database) (req : VoteRequest)
    : Database :=
  {| elections := elections db;
     candidates := candidates db;
     blockchain_transactions :=
       blockchain_transactions db ++ [ledger_row env db req];
     votes := votes db;
     audit_logs := audit_logs db;
     next_transaction_id := next_transaction_id db + 1;
     next_vote_id := next_vote_id db |}.

End LedgerNotions.

(** The vote table with one more row, however it got there. *)
Definition add_vote (db : Database) (v : vote) : Database :=
  {| elections := elections db;
     candidates := candidates db;
     blockchain_transactions := blockchain_transactions db;
     votes := votes db ++ [v];
     audit_logs := audit_logs db;
     next_transaction_id := next_transaction_id db;
     next_vote_id := next_vote_id db |}.


(** ** More runs on the small database *)

Definition refused : SqlError :=
  {| code := "ER_DUP_ENTRY"; sqlMessage := Some "Duplicate entry";
     message := "Duplicate entry" |}.

(** The run [calm], but the ledger INSERT fails. *)
Definition ledger_down : Env :=
  {| electionQuery := None;
     request_instant := 1500;
     rejectionLog := LogStored;
     candidateQuery := None;
     entropy := fun _ => x2a;
     transactionQuery := Some refused;
     failure_instant := 1501;
     failureLog := LogStored;
     voterHash_instant := 1502;
     voteQuery := None;
     receipt_instant := 1503 |}.

(** The run [calm], but the vote INSERT fails. *)
Definition votes_down : Env :=
  {| electionQuery := None;
     request_instant := 1500;
     rejectionLog := LogStored;
     candidateQuery := None;
     entropy := fun _ => x2a;
     transactionQuery := None;
     failure_instant := 1501;
     failureLog := LogStored;
     voterHash_instant := 1502;
     voteQuery := Some refused;
     receipt_instant := 1503 |}.

(** A ballot whose voter address is a number. *)
Definition numbered_ballot : VoteRequest :=
  {| election_id := JNum 1;
     candidate_id := JNum 1;
     voter_address := JNum 42;
     vote_data := JObj "[1]";
     signature := JStr "0xsigned" |}.

Definition pending_vote : vote :=
  {| v_id := 9; v_transaction_id := 9; v_election_id := Some 1;
     v_candidate_id := Some 1; v_voter_id := "ANON_000000000000";
     v_verification_status := "pending" |}.

Definition new_election : ElectionRequest :=
  {| ne_title := JStr "Student Council 2026";
     ne_description := JUndefined;
     ne_type := JStr "general";
     ne_start_date := JStr "2026-01-01 00:00:00";
     ne_end_date := JStr "2026-01-02 00:00:00";
     ne_voting_method := JUndefined;
     ne_privacy_level := JUndefined;
     ne_requires_verification := JUndefined |}.

Definition admin_env : PatchEnv :=
  {| ADMIN_API_TOKEN := Some "s3cret";
     updateQuery := inr 1%nat;
     updateLog := LogStored |}.

(** Close election 1: status and end date, no start date. *)
Definition close_election : PatchRequest :=
  {| header_token := Some "s3cret";
     query_token := JUndefined;
     patch_id := "1";
     patch_status := JStr "closed";
     patch_start_date := JUndefined;
     patch_end_date := JNull |}.

(** An election that no candidate, ledger row or vote refers to. *)
Definition referendum : election :=
  {| e_id := 3; e_title := "Campus Referendum 2026";
     e_status := "active"; e_start_date := 1000; e_end_date := 2000 |}.

Definition db_with_referendum : Database :=
  {| elections := elections db_after_one_vote ++ [referendum];
     candidates := candidates db_after_one_vote;
     blockchain_transactions := blockchain_transactions db_after_one_vote;
     votes := votes db_after_one_vote;
     audit_logs := audit_logs db_after_one_vote;
     next_transaction_id := next_transaction_id db_after_one_vote;
     next_vote_id := next_vote_id db_after_one_vote |}.

(** The three dashboard queries calling back out of order. *)
Definition dashboard_run : list (dashboard_key * (SqlError + list string)) :=
  [(recentActivity, inr ["vote"; "login"]);
   (systemHealth, inr ["network_nodes"]);
   (stats, inr ["totals"])].

(** The same, with two of the queries failing. *)
Definition dashboard_broken : list (dashboard_key * (SqlError + list string))
  :=
  [(recentActivity, inl refused);
   (systemHealth, inr ["network_nodes"]);
   (stats, inl refused)].

(** * Properties *)

(** ** The transaction hash *)

Lemma length_append (s t : string) :
  String.length (s ++ t)%string = (String.length s + String.length t)%nat.
Proof.
  induction s as [|c s IH]; simpl; [reflexivity | now rewrite IH].
Qed.

Lemma toString_hex_length (buf : list byte) :
  String.length (Hex.toString_hex buf) = (2 * List.length buf)%nat.
Proof.
  induction buf as [|b rest IH]; simpl; [reflexivity | rewrite IH; lia].
Qed.

Lemma randomBytes_length (n : nat) (entropy : nat -> byte) :
  List.length (randomBytes n entropy) = n.
Proof.
  unfold randomBytes. now rewrite length_map, length_seq.
Qed.

Lemma transactionHashOf_31_bytes (buf : list byte) :
  List.length buf = 31%nat ->
  String.length (transactionHashOf buf) = 64%nat
  /\ transactionHashOf buf = ("0x" ++ Hex.toString_hex buf)%string.
Proof.
  intros Hlen.
  assert (Hraw : String.length ("0x" ++ Hex.toString_hex buf)%string = 64%nat).
  { rewrite length_append, toString_hex_length, Hlen. reflexivity. }
  unfold transactionHashOf.
  cbv zeta. rewrite Hraw. simpl Nat.ltb. cbv iota.
  split; [exact Hraw | reflexivity].
Qed.

Lemma generateTransactionHash_length (entropy : nat -> byte) :
  String.length (generateTransactionHash entropy) = 64%nat.
Proof.
  unfold generateTransactionHash.
  apply transactionHashOf_31_bytes, randomBytes_length.
Qed.

(** C3: whatever the random source gives, [crypto.randomBytes(31)] is a
    buffer of 31 bytes, the transaction hash that the vote handler
    generates from it is the marker ['0x'] followed by the hex text of
    exactly those bytes, and it is exactly 64 characters long, so the
    defensive cut at 64 never removes anything; the same holds of the hash
    of any buffer of 31 bytes. *)
Theorem transaction_hash_has_64_characters (entropy : nat -> byte) :
  List.length (randomBytes 31 entropy) = 31%nat
  /\ generateTransactionHash entropy
     = ("0x" ++ Hex.toString_hex (randomBytes 31 entropy))%string
  /\ String.length (generateTransactionHash entropy) = 64%nat
  /\ (forall buf : list byte,
        List.length buf = 31%nat ->
        String.length (transactionHashOf buf) = 64%nat
        /\ transactionHashOf buf = ("0x" ++ Hex.toString_hex buf)%string).
Proof.
  pose proof (randomBytes_length 31 entropy) as Hlen.
  destruct (transactionHashOf_31_bytes (randomBytes 31 entropy) Hlen)
    as [Hsize Htext].
  split; [exact Hlen|].
  split; [exact Htext|].
  split; [exact Hsize|].
  intros buf Hbuf. now apply transactionHashOf_31_bytes.
Qed.

Section Properties.

Context {platform : Platform}.

(** ** The guard on the required properties *)

Lemma js_not_missing (v : jsval) : v = JUndefined -> js_not v = true.
Proof. intros ->. reflexivity. Qed.

Lemma js_not_falsy (v : jsval) : falsy_value v = true -> js_not v = true.
Proof.
  unfold falsy_value, js_not. intros Hv.
  apply andb_true_iff in Hv. tauto.
Qed.

Lemma missing_required_field (f : field) (req : VoteRequest) :
  js_not (get_field f req) = true -> missing_required req = true.
Proof.
  unfold missing_required.
  destruct f; simpl; intros ->; rewrite ?orb_true_r; reflexivity.
Qed.

Lemma missing_required_dropped (f : field) (req : VoteRequest) :
  missing_required (drop_field f req) = true.
Proof.
  apply (missing_required_field f). destruct f; reflexivity.
Qed.

Lemma submitVote_missing env db req :
  missing_required req = true -> submitVote env db req = (InvalidInput, db).
Proof.
  intros Hm. unfold submitVote. rewrite Hm. reflexivity.
Qed.

(** C7: when one of the five required properties is missing from the body,
    the handler answers 400 [Missing required voting data] and hands the
    database back as it received it: no ledger row, no vote row, no audit
    row. *)
Theorem missing_field_is_invalid_input env db req (f : field) :
  get_field f req = JUndefined ->
  submitVote env db req = (InvalidInput, db).
Proof.
  intros Hf.
  apply submitVote_missing, (missing_required_field f), js_not_missing, Hf.
Qed.

(** C10: the guard tests falsiness.  A required property that is present
    but is [null], [false], [0] or the empty string draws the same answer,
    and leaves the same database, as the body in which that property is
    missing. *)
Theorem falsy_field_is_invalid_input env db req (f : field) :
  falsy_value (get_field f req) = true ->
  submitVote env db req = (InvalidInput, db)
  /\ submitVote env db req = submitVote env db (drop_field f req).
Proof.
  intros Hf.
  assert (Hreq : submitVote env db req = (InvalidInput, db)).
  { apply submitVote_missing, (missing_required_field f), js_not_falsy, Hf. }
  split; [exact Hreq |].
  rewrite Hreq. symmetry.
  apply submitVote_missing, missing_required_dropped.
Qed.

(** ** Eligibility *)

Lemma submitVote_election env db req election rest :
  missing_required req = false ->
  electionQuery env = None ->
  select_election db (election_id req) = election :: rest ->
  submitVote env db req
  = match eligibility_reason (request_instant env) election with
    | Some reason =>
        rejectVote env db req reason election (request_instant env)
    | None => validateCandidate env db req
    end.
Proof.
  intros Hm Hq Hsel. unfold submitVote. rewrite Hm, Hq, Hsel. reflexivity.
Qed.

Lemma rejectVote_answer env db req reason election now :
  fst (rejectVote env db req reason election now)
  = rejection reason election now.
Proof.
  unfold rejectVote. destruct (rejectionLog env); reflexivity.
Qed.

Lemma eligibility_not_started now election :
  now < e_start_date election ->
  eligibility_reason now election = Some "not_started".
Proof.
  intros Hlt. unfold eligibility_reason.
  apply Z.ltb_lt in Hlt. rewrite Hlt. reflexivity.
Qed.

Lemma eligibility_ended now election :
  e_start_date election <= now -> e_end_date election < now ->
  eligibility_reason now election = Some "ended".
Proof.
  intros Hge Hgt. unfold eligibility_reason.
  apply Z.ltb_ge in Hge. rewrite Hge.
  replace (now >? e_end_date election) with true; [reflexivity |].
  symmetry. apply Z.gtb_lt. exact Hgt.
Qed.

Lemma eligibility_in_window now election :
  e_start_date election <= now <= e_end_date election ->
  eligibility_reason now election
  = if String.eqb (e_status election) "active" then None
    else Some "inactive".
Proof.
  intros [Hge Hle]. unfold eligibility_reason.
  apply Z.ltb_ge in Hge. rewrite Hge.
  replace (now >? e_end_date election) with false.
  - destruct (String.eqb (e_status election) "active"); reflexivity.
  - symmetry. rewrite Z.gtb_ltb. apply Z.ltb_ge. exact Hle.
Qed.

(** C2: once the election row is read, the reason is settled by three
    tests in a fixed order.  Before the start the vote is rejected with
    [not_started], whatever the status; otherwise after the end with
    [ended]; otherwise, when the status is not [active], with [inactive];
    otherwise the election is allowed and the handler goes on to the
    candidate checks. *)
Theorem eligibility_reason_order env db req election rest :
  missing_required req = false ->
  electionQuery env = None ->
  select_election db (election_id req) = election :: rest ->
  let now := request_instant env in
  (now < e_start_date election ->
     eligibility_reason now election = Some "not_started"
     /\ fst (submitVote env db req) = rejection "not_started" election now)
  /\ (e_start_date election <= now -> e_end_date election < now ->
        eligibility_reason now election = Some "ended"
        /\ fst (submitVote env db req) = rejection "ended" election now)
  /\ (e_start_date election <= now <= e_end_date election ->
      e_status election <> "active" ->
        eligibility_reason now election = Some "inactive"
        /\ fst (submitVote env db req) = rejection "inactive" election now)
  /\ (e_start_date election <= now <= e_end_date election ->
      e_status election = "active" ->
        eligibility_reason now election = None
        /\ submitVote env db req = validateCandidate env db req).
Proof.
  intros Hm Hq Hsel now.
  pose proof (submitVote_election env db req election rest Hm Hq Hsel) as Hs.
  fold now in Hs.
  repeat split.
  - now apply eligibility_not_started.
  - rewrite Hs, (eligibility_not_started now election) by assumption.
    apply rejectVote_answer.
  - now apply eligibility_ended.
  - rewrite Hs, (eligibility_ended now election) by assumption.
    apply rejectVote_answer.
  - rewrite eligibility_in_window by assumption.
    destruct (String.eqb_spec (e_status election) "active");
      [contradiction | reflexivity].
  - rewrite Hs, eligibility_in_window by assumption.
    destruct (String.eqb_spec (e_status election) "active"); [contradiction |].
    apply rejectVote_answer.
  - rewrite eligibility_in_window by assumption.
    destruct (String.eqb_spec (e_status election) "active");
      [reflexivity | contradiction].
  - rewrite Hs, eligibility_in_window by assumption.
    destruct (String.eqb_spec (e_status election) "active");
      [reflexivity | contradiction].
Qed.

(** C8: when the eligibility check rejects a submission, the caller gets
    the structured rejection (reason, status, start, end and the instant
    of evaluation) with status 400, the same one whether the audit INSERT
    stores its row, reports an error to its callback, or throws. *)
Theorem rejection_survives_audit_failure env db req election rest reason :
  missing_required req = false ->
  electionQuery env = None ->
  select_election db (election_id req) = election :: rest ->
  eligibility_reason (request_instant env) election = Some reason ->
  forall outcome,
    fst (submitVote (with_rejectionLog outcome env) db req)
    = Json 400
        (RejectionBody "Election is not currently accepting votes" reason
           (e_status election) (e_start_date election) (e_end_date election)
           (request_instant env)).
Proof.
  intros Hm Hq Hsel Hreason outcome.
  rewrite (submitVote_election (with_rejectionLog outcome env) db req
             election rest Hm Hq Hsel).
  simpl request_instant. rewrite Hreason.
  apply rejectVote_answer.
Qed.

(** ** The success path *)

Lemma eligibility_allowed now election :
  e_status election = "active" ->
  e_start_date election <= now <= e_end_date election ->
  eligibility_reason now election = None.
Proof.
  intros Hst Hwin. rewrite eligibility_in_window by assumption.
  rewrite Hst. reflexivity.
Qed.

Lemma validateCandidate_accepts env db req candidate rest :
  candidateQuery env = None ->
  select_candidate db (candidate_id req) = candidate :: rest ->
  loose_eq_number (c_election_id candidate) (election_id req) = true ->
  c_is_active candidate = true ->
  validateCandidate env db req = createTransaction env db req.
Proof.
  intros Hq Hsel Heq Hact. unfold validateCandidate, loose_neq_number.
  rewrite Hq, Hsel, Heq, Hact. reflexivity.
Qed.

Lemma createTransaction_records env db req :
  transactionQuery env = None ->
  voteQuery env = None ->
  textual (voter_address req) = true ->
  vote_recorded db req (createTransaction env db req).
Proof.
  intros Htx Hvote Htext.
  unfold createTransaction. rewrite Htx.
  unfold insert_transaction, recordVote.
  destruct (plus_number (voter_address req) (voterHash_instant env))
    as [text|] eqn:Hplus.
  - rewrite Hvote. unfold insert_vote, vote_recorded.
    cbn -[generateTransactionHash].
    match goal with
    | |- exists _ _ _ _,
          Json 200 (VoteAccepted true _ ?msg ?rc) = _
          /\ _ ++ [?t] = _ /\ _ /\ _ ++ [?vv] = _ /\ _ =>
        exists t, vv, msg, rc
    end.
    repeat split.
  - destruct (voter_address req); simpl in Htext, Hplus; discriminate.
Qed.

(** C1, amended: a submission whose five properties are truthy and whose
    voter address is a string, made while the election exists, is
    [active] and is inside its window, for a candidate that exists,
    belongs to that election and is active, in a run in which the four
    storage calls succeed, is answered with a success; the ledger gains
    one row with status [confirmed], the vote table gains one row with
    status [verified] that points at that ledger row, and the receipt
    carries the hash of the ledger row and the submitted election
    identifier. *)
Theorem truthy_submission_is_recorded env db req election candidate :
  storage_answers env ->
  missing_required req = false ->
  textual (voter_address req) = true ->
  hd_error (select_election db (election_id req)) = Some election ->
  e_status election = "active" ->
  e_start_date election <= request_instant env <= e_end_date election ->
  hd_error (select_candidate db (candidate_id req)) = Some candidate ->
  loose_eq_number (c_election_id candidate) (election_id req) = true ->
  c_is_active candidate = true ->
  vote_recorded db req (submitVote env db req).
Proof.
  intros (Hq1 & Hq2 & Hq3 & Hq4) Hm Htext Hsel Hst Hwin Hcand Heq Hact.
  destruct (select_election db (election_id req)) as [|e erest] eqn:Hse;
    simpl in Hsel; [discriminate | injection Hsel as ->].
  destruct (select_candidate db (candidate_id req)) as [|c crest] eqn:Hsc;
    simpl in Hcand; [discriminate | injection Hcand as ->].
  rewrite (submitVote_election env db req election erest Hm Hq1 Hse).
  rewrite (eligibility_allowed _ _ Hst Hwin).
  rewrite (validateCandidate_accepts env db req candidate crest
             Hq2 Hsc Heq Hact).
  now apply createTransaction_records.
Qed.

(** ** The candidate checks *)

Lemma rejectVote_keeps_ledger env db req reason election now :
  blockchain_transactions (snd (rejectVote env db req reason election now))
  = blockchain_transactions db
  /\ votes (snd (rejectVote env db req reason election now)) = votes db.
Proof.
  unfold rejectVote. destruct (rejectionLog env); split; reflexivity.
Qed.

Lemma validateCandidate_foreign env db req candidate rest :
  select_candidate db (candidate_id req) = candidate :: rest ->
  loose_neq_number (c_election_id candidate) (election_id req) = true ->
  snd (validateCandidate env db req) = db.
Proof.
  intros Hsel Hneq. unfold validateCandidate.
  destruct (candidateQuery env); [reflexivity |].
  rewrite Hsel, Hneq. reflexivity.
Qed.

Lemma submitVote_reaches env db req :
  reaches_candidate_checks env db req ->
  submitVote env db req
  = match select_candidate db (candidate_id req) with
    | [] => (Json 400 (ErrorBody "Invalid candidate" None), db)
    | candidate :: _ =>
        if loose_neq_number (c_election_id candidate) (election_id req)
        then (WrongElection, db)
        else if negb (c_is_active candidate)
        then (Json 400 (ErrorBody "Candidate is not active" None), db)
        else createTransaction env db req
    end.
Proof.
  intros (Hm & Hq & (election & rest & Hsel & Hreason) & Hcq).
  rewrite (submitVote_election env db req election rest Hm Hq Hsel), Hreason.
  unfold validateCandidate. rewrite Hcq. reflexivity.
Qed.

(** C6, amended: a submission whose candidate exists and belongs to an
    election other than the submitted one (under JavaScript's [!=]) never
    adds a row to the ledger or to the vote table.  When the submission
    passes the required-field guard and the eligibility check and the two
    reads succeed, the candidate checks run in this order: no such
    candidate, 400 [Invalid candidate]; a candidate of another election,
    400 [Candidate does not belong to election], be the candidate active
    or not; an inactive candidate of this election, 400 [Candidate is not
    active]; each of the three leaves the database unchanged. *)
Theorem candidate_checks_in_order env db req :
  (forall candidate rest,
      select_candidate db (candidate_id req) = candidate :: rest ->
      loose_neq_number (c_election_id candidate) (election_id req) = true ->
      blockchain_transactions (snd (submitVote env db req))
      = blockchain_transactions db
      /\ votes (snd (submitVote env db req)) = votes db)
  /\ (reaches_candidate_checks env db req ->
      (select_candidate db (candidate_id req) = [] ->
         submitVote env db req
         = (Json 400 (ErrorBody "Invalid candidate" None), db))
      /\ (forall candidate rest,
            select_candidate db (candidate_id req) = candidate :: rest ->
            loose_neq_number (c_election_id candidate) (election_id req)
            = true ->
            submitVote env db req = (WrongElection, db))
      /\ (forall candidate rest,
            select_candidate db (candidate_id req) = candidate :: rest ->
            loose_neq_number (c_election_id candidate) (election_id req)
            = false ->
            c_is_active candidate = false ->
            submitVote env db req
            = (Json 400 (ErrorBody "Candidate is not active" None), db))).
Proof.
  split.
  - intros candidate rest Hsel Hneq. unfold submitVote.
    destruct (missing_required req); [split; reflexivity |].
    destruct (electionQuery env); [split; reflexivity |].
    destruct (select_election db (election_id req)) as [|election erest];
      [split; reflexivity |].
    destruct (eligibility_reason (request_instant env) election).
    + apply rejectVote_keeps_ledger.
    + rewrite (validateCandidate_foreign env db req candidate rest Hsel Hneq).
      split; reflexivity.
  - intros Hreach. rewrite (submitVote_reaches env db req Hreach).
    repeat split.
    + intros ->. reflexivity.
    + intros candidate rest -> ->. reflexivity.
    + intros candidate rest -> -> ->. reflexivity.
Qed.

(** ** Removing an election *)

Lemma referenced_is_found db id :
  referenced db id ->
  existsb (fun tx => sql_eq (tx_election_id tx) id)
    (blockchain_transactions db) = true.
Proof.
  intros (tx & Hin & Hhit). apply existsb_exists. now exists tx.
Qed.

Lemma unreferenced_is_not_found db id :
  ~ referenced db id ->
  existsb (fun tx => sql_eq (tx_election_id tx) id)
    (blockchain_transactions db) = false.
Proof.
  intros Hnone.
  destruct (existsb _ _) eqn:Hfound; [|reflexivity].
  exfalso. apply Hnone. apply existsb_exists in Hfound.
  destruct Hfound as (tx & Hin & Hhit). now exists tx.
Qed.

(** C9: an election is never deleted while transactions that refer to it
    exist.  In every state whose ledger holds a row that refers to the
    election, the DELETE that the handler issues is refused, the handler
    answers 500 [Database error], and every table is as it was: each
    election with that identifier is still there.  The handler itself does
    not look at the ledger; the refusal is the storage layer's, taken from
    the specification. *)
Theorem referenced_election_is_kept fault db id :
  referenced db (JStr id) ->
  deleteElection fault db id
  = (Json 500 (ErrorBody "Database error" None), db)
  /\ (forall e, In e (elections db) ->
                sql_eq (Some (e_id e)) (JStr id) = true ->
                In e (elections (snd (deleteElection fault db id)))).
Proof.
  intros Href.
  assert (Hkept : deleteElection fault db id
                  = (Json 500 (ErrorBody "Database error" None), db)).
  { unfold deleteElection, delete_from_elections.
    destruct fault as [err|]; [reflexivity|].
    now rewrite (referenced_is_found db (JStr id) Href). }
  split; [exact Hkept|].
  intros e Hin _. now rewrite Hkept.
Qed.

(** Without a ledger row that refers to it, and without a fault, the
    election is removed: no election with that identifier is left, the
    other elections and the ledger are untouched, and the answer tells
    whether a row was there. *)
Lemma unreferenced_election_is_removed db id :
  ~ referenced db (JStr id) ->
  elections (snd (deleteElection None db id))
  = filter (fun e => negb (sql_eq (Some (e_id e)) (JStr id))) (elections db)
  /\ blockchain_transactions (snd (deleteElection None db id))
     = blockchain_transactions db
  /\ fst (deleteElection None db id)
     = if existsb (fun e => sql_eq (Some (e_id e)) (JStr id)) (elections db)
       then Json 200 (MessageBody "Election deleted successfully")
       else Json 404 (ErrorBody "Election not found" None).
Proof.
  intros Hnone. unfold deleteElection, delete_from_elections.
  rewrite (unreferenced_is_not_found db (JStr id) Hnone).
  set (hit := fun e => sql_eq (Some (e_id e)) (JStr id)).
  assert (Hcount : (List.length (filter hit (elections db)) =? 0)%nat
                   = negb (existsb hit (elections db))).
  { induction (elections db) as [|e rest IH]; [reflexivity|].
    simpl. destruct (hit e); [reflexivity | exact IH]. }
  rewrite Hcount.
  destruct (existsb hit (elections db)); repeat split.
Qed.

(** ** The tally *)

Lemma insert_desc_perm r rows : Permutation (r :: rows) (insert_desc r rows).
Proof.
  induction rows as [|x rest IH]; simpl.
  - apply Permutation_refl.
  - destruct (r_vote_count x <=? r_vote_count r).
    + apply Permutation_refl.
    + eapply perm_trans; [apply perm_swap | apply perm_skip, IH].
Qed.

Lemma order_by_perm rows : Permutation rows (order_by_vote_count_desc rows).
Proof.
  induction rows as [|r rest IH]; simpl.
  - apply perm_nil.
  - eapply perm_trans; [apply perm_skip, IH | apply insert_desc_perm].
Qed.

Lemma Zsum_perm (l l' : list Z) : Permutation l l' -> Zsum l = Zsum l'.
Proof.
  induction 1; simpl; lia.
Qed.

Lemma fold_left_sum (rows : list result_row) (start : Z) :
  fold_left (fun sum candidate => sum + r_vote_count candidate) rows start
  = start + Zsum (map r_vote_count rows).
Proof.
  revert start. induction rows as [|r rest IH]; intros start; simpl.
  - lia.
  - rewrite IH. lia.
Qed.

Lemma Zsum_of_nat {A : Type} (f : A -> nat) (l : list A) :
  Zsum (map (fun x => Z.of_nat (f x)) l) = Z.of_nat (list_sum (map f l)).
Proof.
  induction l as [|x rest IH]; simpl; [reflexivity | rewrite IH; lia].
Qed.

Lemma list_sum_indicator {A : Type} (b : A -> bool) (l : list A) :
  list_sum (map (fun x => if b x then 1%nat else 0%nat) l)
  = List.length (filter b l).
Proof.
  induction l as [|x rest IH]; simpl; [reflexivity |].
  destruct (b x); simpl; rewrite IH; reflexivity.
Qed.

Lemma list_sum_plus {A : Type} (f g : A -> nat) (l : list A) :
  list_sum (map (fun x => (f x + g x)%nat) l)
  = (list_sum (map f l) + list_sum (map g l))%nat.
Proof.
  induction l as [|x rest IH]; simpl; [reflexivity | rewrite IH; lia].
Qed.

(** Counting the pairs of a relation row by row or column by column. *)
Lemma count_swap {A B : Type} (R : A -> B -> bool) (xs : list A)
    (ys : list B) :
  list_sum (map (fun x => List.length (filter (R x) ys)) xs)
  = list_sum (map (fun y => List.length (filter (fun x => R x y) xs)) ys).
Proof.
  induction xs as [|x rest IH]; simpl.
  - induction ys as [|y ys IHy]; simpl; [reflexivity | exact IHy].
  - rewrite IH, <- list_sum_indicator, <- list_sum_plus.
    f_equal. apply map_ext. intros y. destruct (R x y); reflexivity.
Qed.

Lemma filter_length_ext {A : Type} (f g : A -> bool) (l : list A) :
  (forall x, f x = g x) ->
  List.length (filter f l) = List.length (filter g l).
Proof.
  intros Hfg. now rewrite (filter_ext f g Hfg).
Qed.

Lemma option_Z_eqb_sym a b : Sql.option_Z_eqb a b = Sql.option_Z_eqb b a.
Proof.
  destruct a, b; simpl; try reflexivity. apply Z.eqb_sym.
Qed.

Lemma option_Z_eqb_Some a b :
  Sql.option_Z_eqb a (Some b) = true -> a = Some b.
Proof.
  destruct a; simpl; [|discriminate]. intros Hab.
  apply Z.eqb_eq in Hab. now subst.
Qed.

Lemma filter_key_absent (keep : candidate -> bool) (k : Z)
    (cs : list candidate) :
  ~ In k (map c_id cs) ->
  filter (fun c => Sql.option_Z_eqb (Some k) (Some (c_id c)) && keep c) cs
  = [].
Proof.
  induction cs as [|c rest IH]; simpl; [reflexivity |].
  intros Hnotin.
  destruct (Z.eqb_spec k (c_id c)) as [Heq | Hneq].
  - exfalso. apply Hnotin. left. now symmetry.
  - simpl. apply IH. intros Hin. apply Hnotin. now right.
Qed.

(** A key names at most one row. *)
Lemma filter_key_unique (keep : candidate -> bool) (key : option Z)
    (cs : list candidate) :
  NoDup (map c_id cs) ->
  List.length
    (filter (fun c => Sql.option_Z_eqb key (Some (c_id c)) && keep c) cs)
  = if existsb (fun c => keep c && Sql.option_Z_eqb key (Some (c_id c))) cs
    then 1%nat else 0%nat.
Proof.
  induction cs as [|c rest IH]; simpl; [reflexivity |].
  intros Hnd. inversion Hnd as [|k ks Hnotin Hrest]; subst.
  rewrite (andb_comm (keep c)).
  destruct (Sql.option_Z_eqb key (Some (c_id c)) && keep c) eqn:Hc; simpl.
  - apply andb_true_iff in Hc. destruct Hc as [Hkey _].
    apply option_Z_eqb_Some in Hkey. subst key.
    now rewrite (filter_key_absent keep (c_id c) rest Hnotin).
  - apply IH. exact Hrest.
Qed.

Lemma filter_twice {A : Type} (f g : A -> bool) (l : list A) :
  filter f (filter g l) = filter (fun x => g x && f x) l.
Proof.
  induction l as [|x rest IH]; simpl; [reflexivity |].
  destruct (g x); simpl; [destruct (f x) |]; now rewrite IH.
Qed.

Lemma existsb_never {A : Type} (f : A -> bool) (l : list A) :
  (forall x, f x = false) -> existsb f l = false.
Proof.
  intros Hf. induction l as [|x rest IH]; simpl; [reflexivity |].
  now rewrite Hf, IH.
Qed.

Lemma existsb_ext {A : Type} (f g : A -> bool) (l : list A) :
  (forall x, f x = g x) -> existsb f l = existsb g l.
Proof.
  intros Hfg. induction l as [|x rest IH]; simpl; [reflexivity |].
  now rewrite Hfg, IH.
Qed.

Lemma list_sum_guarded {A : Type} (b : A -> bool) (f : A -> nat)
    (l : list A) :
  list_sum (map (fun x => if b x then f x else 0%nat) l)
  = list_sum (map f (filter b l)).
Proof.
  induction l as [|x rest IH]; simpl; [reflexivity |].
  destruct (b x); simpl; now rewrite IH.
Qed.

Lemma list_sum_filter_split {A : Type} (b a : A -> bool) (f : A -> nat)
    (l : list A) :
  list_sum (map f (filter b l))
  = (list_sum (map f (filter (fun x => b x && a x) l))
     + list_sum (map f (filter (fun x => b x && negb (a x)) l)))%nat.
Proof.
  induction l as [|x rest IH]; simpl; [reflexivity |].
  destruct (b x), (a x); simpl; rewrite IH; lia.
Qed.

(** The votes that the LEFT JOIN attaches to candidate [c]. *)
Lemma vote_count_unfold db c :
  vote_count db c
  = Z.of_nat
      (List.length
         (filter (fun v => Sql.option_Z_eqb (Some (c_id c)) (v_candidate_id v)
                           && verified v)
            (votes db))).
Proof. reflexivity. Qed.

Lemma results_query_counts db id :
  Zsum (map r_vote_count (results_query db id))
  = Zsum (map (vote_count db) (filter (listed id) (candidates db))).
Proof.
  unfold results_query.
  rewrite <- (Zsum_perm _ _
                (Permutation_map r_vote_count (order_by_perm _))).
  rewrite map_map. reflexivity.
Qed.

Lemma results_query_rows db id r :
  In r (results_query db id) ->
  exists c, In c (candidates db)
            /\ r_vote_count r = vote_count db c
            /\ r_percentage r
               = Sql.percentage (vote_count db c) (total_votes db id).
Proof.
  unfold results_query. intros Hin.
  apply (Permutation_in _ (Permutation_sym (order_by_perm _))) in Hin.
  apply in_map_iff in Hin. destruct Hin as (c & <- & Hc).
  apply filter_In in Hc. exists c. repeat split. tauto.
Qed.

(** The sum of the counts in the result is the number of verified votes
    cast for a listed candidate. *)
Lemma listed_counts_sum db id :
  NoDup (map c_id (candidates db)) ->
  Zsum (map (vote_count db) (filter (listed id) (candidates db)))
  = Z.of_nat (List.length (listed_votes_of db id)).
Proof.
  intros Hkey.
  rewrite (map_ext _ _ (vote_count_unfold db)).
  rewrite Zsum_of_nat. f_equal.
  rewrite (count_swap
             (fun c v => Sql.option_Z_eqb (Some (c_id c)) (v_candidate_id v)
                         && verified v)).
  unfold listed_votes_of. rewrite <- list_sum_indicator.
  f_equal. apply map_ext. intros v.
  rewrite filter_twice.
  rewrite (filter_length_ext _
             (fun c => Sql.option_Z_eqb (v_candidate_id v) (Some (c_id c))
                       && (listed id c && verified v))).
  - rewrite (filter_key_unique _ _ _ Hkey).
    destruct (verified v); simpl.
    + erewrite existsb_ext; [reflexivity |].
      intros c. now rewrite andb_true_r.
    + rewrite existsb_never; [reflexivity |].
      intros c. now rewrite andb_false_r.
  - intros c. rewrite (option_Z_eqb_sym (Some (c_id c))).
    destruct (listed id c), (verified v),
      (Sql.option_Z_eqb (v_candidate_id v) (Some (c_id c))); reflexivity.
Qed.

(** The derived table [total] counts the verified votes of every
    candidate of the election, listed or not. *)
Lemma total_votes_by_candidate db id :
  total_votes db id
  = Zsum (map (vote_count db) (filter (listed id) (candidates db)))
    + unlisted_votes db id.
Proof.
  unfold total_votes, unlisted_votes.
  rewrite (map_ext _ _ (vote_count_unfold db)
             (filter (listed id) (candidates db))).
  rewrite (map_ext _ _ (vote_count_unfold db)
             (filter (fun c => sql_eq (Some (c_election_id c)) id
                               && negb (c_is_active c))
                (candidates db))).
  rewrite !Zsum_of_nat.
  rewrite <- Nat2Z.inj_add. f_equal.
  rewrite length_flat_map.
  rewrite <- (count_swap
                (fun c v =>
                   Sql.option_Z_eqb (v_candidate_id v) (Some (c_id c))
                   && sql_eq (Some (c_election_id c)) id && verified v)).
  rewrite (map_ext _
             (fun c =>
                if sql_eq (Some (c_election_id c)) id
                then List.length
                       (filter
                          (fun v =>
                             Sql.option_Z_eqb (Some (c_id c))
                               (v_candidate_id v)
                             && verified v)
                          (votes db))
                else 0%nat)).
  - rewrite list_sum_guarded.
    apply (list_sum_filter_split _ c_is_active).
  - intros c. destruct (sql_eq (Some (c_election_id c)) id).
    + apply filter_length_ext. intros v.
      rewrite (option_Z_eqb_sym (Some (c_id c))), andb_true_r. reflexivity.
    + apply length_zero_iff_nil.
      rewrite (filter_ext _ (fun _ => false)).
      * induction (votes db) as [|v rest IH]; simpl; [reflexivity | exact IH].
      * intros v. rewrite andb_false_r. reflexivity.
Qed.

Lemma getResults_body queryErr db id totalVotes rows :
  getResults queryErr db id = Json 200 (ResultsBody totalVotes rows) ->
  rows = results_query db (JStr id)
  /\ totalVotes = Zsum (map r_vote_count rows).
Proof.
  unfold getResults. destruct queryErr; [discriminate |].
  intros Hbody. injection Hbody as Htotal Hrows. subst rows.
  split; [reflexivity |].
  rewrite <- Htotal, fold_left_sum. lia.
Qed.

(** C4, amended: [total_votes] in the answer is the sum of the
    [vote_count] fields of the returned rows, and that sum is the number
    of vote rows with status [verified] whose candidate is one of the
    active candidates of the election; verified votes held by a
    deactivated candidate are not in it. *)
Theorem totalVotes_counts_listed_votes queryErr db id totalVotes rows :
  NoDup (map c_id (candidates db)) ->
  getResults queryErr db id = Json 200 (ResultsBody totalVotes rows) ->
  totalVotes = Zsum (map r_vote_count rows)
  /\ totalVotes = Z.of_nat (List.length (listed_votes_of db (JStr id))).
Proof.
  intros Hkey Hbody.
  destruct (getResults_body _ _ _ _ _ Hbody) as [Hrows Htotal].
  split; [exact Htotal |].
  rewrite Htotal, Hrows, results_query_counts.
  now apply listed_counts_sum.
Qed.

(** ** Percentages *)

Lemma vote_count_nonneg db c : 0 <= vote_count db c.
Proof. unfold vote_count. lia. Qed.

Lemma total_votes_nonneg db id : 0 <= total_votes db id.
Proof. unfold total_votes. lia. Qed.

(** On counts, the SQL expression is the rounding of the specification. *)
Lemma percentage_spec count total :
  0 <= count -> 0 <= total ->
  Sql.percentage count total = spec_percentage count total.
Proof.
  intros Hcount Htotal. unfold Sql.percentage, spec_percentage, Sql.NULLIF.
  destruct (total =? 0) eqn:Hzero; [reflexivity |].
  f_equal. unfold Sql.ROUND2, round_2dp.
  rewrite inject_Z_mult. change (inject_Z 100) with (100 # 1)%Q.
  replace (Qle_bool 0 (inject_Z count * (100 # 1) / inject_Z total)) with true;
    [reflexivity |].
  symmetry. apply Qle_bool_iff. unfold Qdiv.
  apply Qmult_le_0_compat; [apply Qmult_le_0_compat |].
  - change 0%Q with (inject_Z 0). now rewrite <- Zle_Qle.
  - discriminate.
  - apply Qinv_le_0_compat.
    change 0%Q with (inject_Z 0). now rewrite <- Zle_Qle.
Qed.

(** Every percentage in the answer is taken against the count of the
    derived table [total]: the verified votes cast for the candidates of
    the election, active or not.  That count is [total_votes] of the
    answer plus the verified votes held by the deactivated candidates. *)
Lemma percentages_by_election_total queryErr db id totalVotes rows :
  getResults queryErr db id = Json 200 (ResultsBody totalVotes rows) ->
  (total_votes db (JStr id) <> 0 ->
   forall r, In r rows ->
     r_percentage r
     = Some (round_2dp (inject_Z (r_vote_count r * 100)
                        / inject_Z (total_votes db (JStr id)))))
  /\ (total_votes db (JStr id) = 0 ->
      forall r, In r rows -> r_percentage r = None)
  /\ total_votes db (JStr id) = totalVotes + unlisted_votes db (JStr id).
Proof.
  intros Hbody.
  destruct (getResults_body _ _ _ _ _ Hbody) as [Hrows Htotal].
  assert (Hpct : forall r, In r rows ->
            r_percentage r
            = spec_percentage (r_vote_count r) (total_votes db (JStr id))).
  { intros r Hr. rewrite Hrows in Hr.
    destruct (results_query_rows _ _ _ Hr) as (c & _ & Hcount & Hp).
    rewrite Hp, Hcount.
    apply percentage_spec;
      [apply vote_count_nonneg | apply total_votes_nonneg]. }
  repeat split.
  - intros HT r Hr. rewrite (Hpct r Hr). unfold spec_percentage.
    apply Z.eqb_neq in HT. rewrite HT. reflexivity.
  - intros HT r Hr. rewrite (Hpct r Hr). unfold spec_percentage.
    rewrite HT. reflexivity.
  - rewrite Htotal, Hrows, results_query_counts.
    apply total_votes_by_candidate.
Qed.

(** Where no deactivated candidate of the election holds a verified vote,
    the two totals agree: the percentage of every returned row is
    round(vote_count * 100 / total_votes, 2 decimal places) when
    [total_votes] is not zero, and NULL for every row when it is zero. *)
Lemma percentages_against_totalVotes_when_all_listed
    queryErr db id totalVotes rows :
  getResults queryErr db id = Json 200 (ResultsBody totalVotes rows) ->
  unlisted_votes db (JStr id) = 0 ->
  (totalVotes <> 0 ->
   forall r, In r rows ->
     r_percentage r
     = Some (round_2dp (inject_Z (r_vote_count r * 100)
                        / inject_Z totalVotes)))
  /\ (totalVotes = 0 -> forall r, In r rows -> r_percentage r = None).
Proof.
  intros Hbody Hnone.
  destruct (percentages_by_election_total _ _ _ _ _ Hbody)
    as (Hsome & Hnull & HT).
  rewrite Hnone, Z.add_0_r in HT. rewrite HT in Hsome, Hnull.
  split; assumption.
Qed.

End Properties.

(** * Further properties *)

(** ** Hashes and addresses *)

Lemma all_chars_append p s t :
  HexText.all_chars p (s ++ t)%string
  = HexText.all_chars p s && HexText.all_chars p t.
Proof.
  induction s as [|c s IH]; simpl; [reflexivity |].
  now rewrite IH, andb_assoc.
Qed.

Lemma byte_to_hex_digits b :
  HexText.all_chars HexText.is_hex_digit (Hex.byte_to_hex b) = true.
Proof. destruct b; reflexivity. Qed.

Lemma toString_hex_cons b rest :
  Hex.toString_hex (b :: rest)
  = (Hex.byte_to_hex b ++ Hex.toString_hex rest)%string.
Proof. reflexivity. Qed.

Lemma toString_hex_digits buf :
  HexText.all_chars HexText.is_hex_digit (Hex.toString_hex buf) = true.
Proof.
  induction buf as [|b rest IH]; [reflexivity |].
  now rewrite toString_hex_cons, all_chars_append, byte_to_hex_digits, IH.
Qed.

Lemma fromHex_byte b rest :
  HexText.fromHex (Hex.byte_to_hex b ++ rest)%string
  = option_map (fun bytes => b :: bytes) (HexText.fromHex rest).
Proof.
  destruct b; simpl; destruct (HexText.fromHex rest); reflexivity.
Qed.

(** Reading the hex text of a buffer back gives the buffer. *)
Lemma fromHex_toString_hex buf :
  HexText.fromHex (Hex.toString_hex buf) = Some buf.
Proof.
  induction buf as [|b rest IH]; [reflexivity |].
  now rewrite toString_hex_cons, fromHex_byte, IH.
Qed.

Lemma toString_hex_injective buf1 buf2 :
  Hex.toString_hex buf1 = Hex.toString_hex buf2 -> buf1 = buf2.
Proof.
  intros Heq.
  pose proof (fromHex_toString_hex buf1) as H1.
  rewrite Heq, fromHex_toString_hex in H1. now injection H1.
Qed.

Lemma toString_hex_app buf1 buf2 :
  Hex.toString_hex (buf1 ++ buf2)
  = (Hex.toString_hex buf1 ++ Hex.toString_hex buf2)%string.
Proof.
  induction buf1 as [|b rest IH]; [reflexivity |].
  rewrite <- app_comm_cons, !toString_hex_cons, IH.
  induction (Hex.byte_to_hex b) as [|c s IHs]; simpl; [reflexivity |].
  now rewrite IHs.
Qed.

Lemma substring_prefix s t :
  String.substring 0 (String.length s) (s ++ t)%string = s.
Proof.
  induction s as [|c s IH]; simpl.
  - destruct t; reflexivity.
  - now rewrite IH.
Qed.

Lemma transactionHashOf_fits buf :
  (List.length buf <= 31)%nat ->
  transactionHashOf buf = ("0x" ++ Hex.toString_hex buf)%string.
Proof.
  intros Hlen. unfold transactionHashOf. cbv zeta.
  replace (64 <? String.length ("0x" ++ Hex.toString_hex buf)%string)%nat
    with false; [reflexivity |].
  symmetry. apply Nat.ltb_ge.
  rewrite length_append, toString_hex_length. simpl. lia.
Qed.

Lemma randomBytes_hash_length entropy :
  String.length (generateTransactionHash entropy) = 64%nat.
Proof.
  unfold generateTransactionHash.
  rewrite transactionHashOf_fits by (rewrite randomBytes_length; lia).
  rewrite length_append, toString_hex_length, randomBytes_length.
  reflexivity.
Qed.

(** X10: a transaction hash is the marker followed by 62 lowercase hex
    digits. *)
Theorem transaction_hash_is_hex (buf : list byte) :
  List.length buf = 31%nat ->
  exists digits,
    transactionHashOf buf = ("0x" ++ digits)%string
    /\ String.length digits = 62%nat
    /\ HexText.all_chars HexText.is_hex_digit digits = true.
Proof.
  intros Hlen. exists (Hex.toString_hex buf). repeat split.
  - apply transactionHashOf_fits. lia.
  - rewrite toString_hex_length, Hlen. reflexivity.
  - apply toString_hex_digits.
Qed.

(** X11: two random buffers give the same hash only if they are the same
    buffer. *)
Theorem transaction_hash_injective (buf1 buf2 : list byte) :
  List.length buf1 = 31%nat ->
  List.length buf2 = 31%nat ->
  transactionHashOf buf1 = transactionHashOf buf2 ->
  buf1 = buf2.
Proof.
  intros H1 H2. rewrite !transactionHashOf_fits by lia.
  intros Heq. apply toString_hex_injective.
  now injection Heq.
Qed.

(** X12: whatever the length of the buffer, the hash has at most 64
    characters, and it is the hash of the first 31 bytes. *)
Theorem transaction_hash_cut (buf : list byte) :
  (String.length (transactionHashOf buf) <= 64)%nat
  /\ transactionHashOf buf = transactionHashOf (firstn 31 buf).
Proof.
  destruct (Nat.le_gt_cases (List.length buf) 31) as [Hshort | Hlong].
  - rewrite firstn_all2 by exact Hshort. split; [| reflexivity].
    rewrite transactionHashOf_fits by exact Hshort.
    rewrite length_append, toString_hex_length. simpl. lia.
  - assert (Hfirst : List.length (firstn 31 buf) = 31%nat)
      by (rewrite length_firstn; lia).
    assert (Hcut : transactionHashOf buf
                   = ("0x" ++ Hex.toString_hex (firstn 31 buf))%string).
    { unfold transactionHashOf. cbv zeta.
      replace (64 <? String.length ("0x" ++ Hex.toString_hex buf)%string)%nat
        with true.
      - unfold slice0.
        rewrite <- (firstn_skipn 31 buf) at 1.
        rewrite toString_hex_app.
        change ("0x" ++ (Hex.toString_hex (firstn 31 buf)
                         ++ Hex.toString_hex (skipn 31 buf)))%string
          with (("0x" ++ Hex.toString_hex (firstn 31 buf))
                ++ Hex.toString_hex (skipn 31 buf))%string.
        replace 64%nat
          with (String.length
                  ("0x" ++ Hex.toString_hex (firstn 31 buf))%string).
        + apply substring_prefix.
        + rewrite length_append, toString_hex_length, Hfirst. reflexivity.
      - symmetry. apply Nat.ltb_lt.
        rewrite length_append, toString_hex_length. simpl. lia. }
    rewrite Hcut, transactionHashOf_fits by lia. split; [| reflexivity].
    rewrite length_append, toString_hex_length, Hfirst. simpl. lia.
Qed.

(** ** Creating an election *)

Lemma blockchainAddressOf_format entropy :
  String.length (blockchainAddressOf (randomBytes 20 entropy)) = 42%nat
  /\ exists digits,
       blockchainAddressOf (randomBytes 20 entropy) = ("0x" ++ digits)%string
       /\ HexText.all_chars HexText.is_hex_digit digits = true.
Proof.
  unfold blockchainAddressOf. split.
  - rewrite length_append, toString_hex_length, randomBytes_length.
    reflexivity.
  - eexists. split; [reflexivity | apply toString_hex_digits].
Qed.

(** X23: the INSERT of a new election is sent only for a body whose title,
    start date and end date are truthy.  When the answer is 201, the
    INSERT succeeded with the identifier that is returned, and the address
    that is returned is the one bound to the last placeholder: the marker
    ['0x'] and 40 lowercase hex digits, 42 characters in all. *)
Theorem created_election_address entropy outcome req :
  (snd (createElection entropy outcome req) <> [] ->
     truthy (ne_title req) = true /\ truthy (ne_start_date req) = true
     /\ truthy (ne_end_date req) = true)
  /\ (forall message id address,
        fst (createElection entropy outcome req)
        = (201, Created message id address) ->
        outcome = inr id
        /\ String.length address = 42%nat
        /\ (exists digits,
              address = ("0x" ++ digits)%string
              /\ HexText.all_chars HexText.is_hex_digit digits = true)
        /\ snd (createElection entropy outcome req)
           = [InsertElection
                [ne_title req; ne_description req; ne_type req;
                 ne_start_date req; ne_end_date req; ne_voting_method req;
                 ne_privacy_level req; ne_requires_verification req;
                 JStr address]]).
Proof.
  unfold createElection, js_not.
  destruct (truthy (ne_title req)), (truthy (ne_start_date req)),
    (truthy (ne_end_date req)); simpl;
    try (split; [intros Hne; now contradiction Hne
                | intros message id address Heq; discriminate Heq]).
  split; [intros _; repeat split |].
  intros message id address Heq.
  destruct outcome as [err | insertId]; simpl in Heq; [discriminate Heq |].
  injection Heq as _ Hid Haddr. subst id address.
  destruct (blockchainAddressOf_format entropy) as [Hlen Hhex].
  repeat split; assumption.
Qed.

(** ** The administrative update of an election *)

Lemma patch_unauthorized env req :
  unauthorized env req = true ->
  patchElection env req = (Json 403 (ErrorBody "Unauthorized" None), []).
Proof.
  intros Hun. unfold patchElection. rewrite Hun. reflexivity.
Qed.

(** X24: the administrative update is closed unless a token is configured.
    With [ADMIN_API_TOKEN] unset or empty every request is answered 403
    and nothing is sent to the database; a non-empty header that is not
    the configured token is refused whatever the query string holds; and
    any answer other than 403 means that the supplied token is a string
    equal to the non-empty configured token. *)
Theorem patch_is_closed_without_token env req :
  (ADMIN_API_TOKEN env = None \/ ADMIN_API_TOKEN env = Some "" ->
     patchElection env req = (Json 403 (ErrorBody "Unauthorized" None), []))
  /\ (forall configured header,
        ADMIN_API_TOKEN env = Some configured ->
        header_token req = Some header ->
        header <> "" -> header <> configured ->
        patchElection env req
        = (Json 403 (ErrorBody "Unauthorized" None), []))
  /\ (fst (patchElection env req) <> Json 403 (ErrorBody "Unauthorized" None)
      -> exists configured,
           ADMIN_API_TOKEN env = Some configured
           /\ configured <> ""
           /\ supplied_token req = JStr configured).
Proof.
  repeat split.
  - intros [Hnone | Hempty]; apply patch_unauthorized; unfold unauthorized.
    + now rewrite Hnone.
    + now rewrite Hempty.
  - intros configured header Henv Hheader Hne Hdiff.
    apply patch_unauthorized. unfold unauthorized, supplied_token.
    rewrite Henv, Hheader. unfold js_or. simpl.
    destruct (String.eqb_spec header ""); [contradiction |]. simpl.
    destruct (String.eqb_spec header configured); [contradiction |].
    apply orb_true_r.
  - intros Hanswer.
    destruct (unauthorized env req) eqn:Hun.
    + rewrite (patch_unauthorized env req Hun) in Hanswer.
      now contradiction Hanswer.
    + unfold unauthorized in Hun.
      destruct (ADMIN_API_TOKEN env) as [configured |]; [| discriminate].
      apply orb_false_iff in Hun. destruct Hun as [Hne Heq].
      apply negb_false_iff in Heq.
      exists configured. repeat split.
      * intros ->. discriminate Hne.
      * unfold strict_eq_string in Heq.
        destruct (supplied_token req); try discriminate.
        apply String.eqb_eq in Heq. now subst.
Qed.

(** X25: an UPDATE that the handler sends has as many placeholders as bound
    values: one for every property among status, start_date and end_date
    that the body has (a [null] counts), at least one of them, followed by
    the identifier of the path. *)
Theorem patch_placeholders_match env req sql params :
  In (UpdateElection sql params) (snd (patchElection env req)) ->
  count_char "?" sql = List.length params
  /\ exists fields,
       params = fields ++ [JStr (patch_id req)]
       /\ fields <> []
       /\ fields
          = filter present
              [patch_status req; patch_start_date req; patch_end_date req].
Proof.
  unfold patchElection.
  destruct (unauthorized env req); [intros [] |].
  unfold build_updates. simpl filter.
  destruct (present (patch_status req)),
    (present (patch_start_date req)), (present (patch_end_date req));
    cbn -[String.concat count_char];
    try (intros []);
    (destruct (updateQuery env) as [err | affectedRows];
     [| destruct (affectedRows =? 0)%nat; [| destruct (updateLog env)]]);
    cbn -[String.concat count_char];
    intros Hin;
    repeat (destruct Hin as [Hin | Hin]; try discriminate Hin);
    try contradiction.
  all: injection Hin as <- <-.
  all: split; [reflexivity |].
  all: refine (ex_intro _ _ (conj _ (conj _ eq_refl)));
    [reflexivity | discriminate].
Qed.

(** ** The dashboard *)

Lemma permutation_of_three {A : Type} (a b c : A) (l : list A) :
  Permutation l [a; b; c] ->
  l = [a; b; c] \/ l = [a; c; b] \/ l = [b; a; c]
  \/ l = [b; c; a] \/ l = [c; a; b] \/ l = [c; b; a].
Proof.
  intros Hperm.
  destruct (Permutation_vs_cons_inv Hperm) as (l1 & l2 & ->).
  apply Permutation_sym, Permutation_cons_app_inv,
    Permutation_length_2_inv in Hperm.
  destruct l1 as [|x [|y [|z l1]]]; simpl in Hperm;
    destruct Hperm as [Hperm | Hperm];
    try (destruct l2 as [|u [|w l2]]; simpl in Hperm);
    try discriminate Hperm; injection Hperm; intros; subst;
    try (destruct l1; discriminate); simpl; tauto.
Qed.

(** X26: when the three queries of the dashboard succeed, the handler
    answers once, with the first row of [stats] and all rows of the two
    other queries, in whatever order the three queries call back. *)
Theorem dashboard_answers_once_in_any_order (Row : Type)
    (stats_rows activity_rows health_rows : list Row)
    (completions : list (dashboard_key * (SqlError + list Row))) :
  Permutation completions
    [(stats, inr stats_rows); (recentActivity, inr activity_rows);
     (systemHealth, inr health_rows)] ->
  dashboard completions
  = [DashboardJson
       {| d_stats := Some (FirstRow (hd_error stats_rows));
          d_recentActivity := Some (AllRows activity_rows);
          d_systemHealth := Some (AllRows health_rows) |}].
Proof.
  intros Hperm.
  destruct (permutation_of_three _ _ _ _ Hperm)
    as [-> | [-> | [-> | [-> | [-> | ->]]]]]; reflexivity.
Qed.

(** X27: when one of the three queries fails, the client is sent one
    answer, 500 [Database error], and never the dashboard data.  A second
    failed query calls [res.json] on the response that is already sent:
    the call throws, so a callback throws exactly when two or more of the
    three queries fail. *)
Theorem dashboard_failure_answers (Row : Type)
    (completions : list (dashboard_key * (SqlError + list Row))) :
  List.length completions = 3%nat ->
  existsb query_failed completions = true ->
  dashboard completions = [DashboardError]
  /\ dashboard_throws completions
     = (2 <=? List.length (filter query_failed completions))%nat.
Proof.
  intros Hlen Hfail.
  destruct completions
    as [|[k1 [e1 | r1]] [|[k2 [e2 | r2]] [|[k3 [e3 | r3]] [|]]]];
    try discriminate Hlen; try discriminate Hfail;
    destruct k1, k2, k3; split; reflexivity.
Qed.

(** ** The list of elections *)

Lemma left_join_In {A B : Type} (l : list A) (matches : A -> list B) a ob :
  In (a, ob) (left_join l matches)
  <-> In a l /\ match ob with
                | Some b => In b (matches a)
                | None => matches a = []
                end.
Proof.
  unfold left_join. rewrite in_flat_map. split.
  - intros (x & Hx & Hin).
    destruct (matches x) as [|b0 bs] eqn:Hm.
    + destruct Hin as [Heq | []]. injection Heq as -> <-. now split.
    + apply in_map_iff in Hin. destruct Hin as (b & Heq & Hb).
      injection Heq as -> <-. split; [assumption | now rewrite Hm].
  - intros [Ha Hob]. exists a. split; [assumption |].
    destruct ob as [b |].
    + destruct (matches a) as [|b0 bs] eqn:Hm; [contradiction |].
      apply in_map_iff. now exists b.
    + rewrite Hob. now left.
Qed.

Lemma filtered_keys_distinct {Key Record : Type} (rows : list Record)
    (key : Record -> Key) (keep : Record -> bool) :
  NoDup (map key rows) -> NoDup (map key (filter keep rows)).
Proof.
  intros Hkeys. induction rows as [|row rows IH]; [constructor |].
  cbn [map] in Hkeys. apply NoDup_cons_iff in Hkeys.
  destruct Hkeys as [Hfresh Hkeys]. cbn [filter].
  destruct (keep row); [| now apply IH].
  cbn [map]. apply NoDup_cons_iff. split; [| now apply IH].
  intros Hin. apply Hfresh.
  apply in_map_iff in Hin. destruct Hin as (other & Hsame & Hother).
  apply filter_In in Hother. apply in_map_iff. exists other. tauto.
Qed.

Lemma count_distinct_exact (column : list (option Z)) (keys : list Z) :
  NoDup keys ->
  (forall k, In (Some k) column <-> In k keys) ->
  count_distinct column = Z.of_nat (List.length keys).
Proof.
  intros Hnd Hsame. unfold count_distinct. f_equal.
  apply Permutation_length, NoDup_Permutation;
    [apply NoDup_nodup | exact Hnd |].
  intros k. rewrite nodup_In, in_flat_map, <- Hsame. split.
  - intros ([x |] & Hx & Hk); simpl in Hk; [| contradiction].
    destruct Hk as [-> | []]. exact Hx.
  - intros Hin. exists (Some k). split; [exact Hin | now left].
Qed.

(** X28: in the list of elections, [candidate_count] is the number of
    active candidates of the election and [vote_count] the number of its
    verified votes: the two joins multiply the rows of the group, and the
    DISTINCT counts are not affected. *)
Theorem election_counts_are_exact (db : Database) (e : election) :
  NoDup (map c_id (candidates db)) ->
  NoDup (map v_id (votes db)) ->
  election_counts db e
  = (Z.of_nat
       (List.length
          (filter (fun c => (e_id e =? c_election_id c) && c_is_active c)
             (candidates db))),
     Z.of_nat
       (List.length
          (filter
             (fun v => Sql.option_Z_eqb (Some (e_id e)) (v_election_id v)
                       && Sql.text_is (v_verification_status v) "verified")
             (votes db)))).
Proof.
  intros Hc Hv. unfold election_counts, election_group.
  set (cs := filter (fun c => (e_id e =? c_election_id c) && c_is_active c)
               (candidates db)).
  set (vs := filter
               (fun v => Sql.option_Z_eqb (Some (e_id e)) (v_election_id v)
                         && Sql.text_is (v_verification_status v) "verified")
               (votes db)).
  f_equal.
  - rewrite <- (length_map c_id cs).
    apply count_distinct_exact; [now apply filtered_keys_distinct |].
    intros k. rewrite !in_map_iff. split.
    + intros ([[e' oc] ov] & Hk & Hrow). simpl in Hk.
      apply left_join_In in Hrow. destruct Hrow as [Hrow _].
      apply left_join_In in Hrow. destruct Hrow as [[<- | []] Hoc].
      destruct oc as [c |]; [| discriminate Hk].
      injection Hk as <-. now exists c.
    + intros (c & <- & Hcin).
      destruct vs as [|v0 rest] eqn:Hvs.
      * exists (e, Some c, None). split; [reflexivity |].
        apply left_join_In. split; [| exact Hvs].
        apply left_join_In. split; [now left | exact Hcin].
      * exists (e, Some c, Some v0). split; [reflexivity |].
        apply left_join_In. split.
        -- apply left_join_In. split; [now left | exact Hcin].
        -- simpl fst. fold vs. rewrite Hvs. now left.
  - rewrite <- (length_map v_id vs).
    apply count_distinct_exact; [now apply filtered_keys_distinct |].
    intros k. rewrite !in_map_iff. split.
    + intros ([[e' oc] ov] & Hk & Hrow). simpl in Hk.
      apply left_join_In in Hrow. destruct Hrow as [Hrow Hov].
      apply left_join_In in Hrow. destruct Hrow as [[<- | []] _].
      destruct ov as [v |]; [| discriminate Hk].
      injection Hk as <-. now exists v.
    + intros (v & <- & Hvin).
      destruct cs as [|c0 rest] eqn:Hcs.
      * exists (e, None, Some v). split; [reflexivity |].
        apply left_join_In. split; [| exact Hvin].
        apply left_join_In. split; [now left | exact Hcs].
      * exists (e, Some c0, Some v). split; [reflexivity |].
        apply left_join_In. split; [| exact Hvin].
        apply left_join_In. split; [now left |].
        fold cs. rewrite Hcs. now left.
Qed.

Section Coverage.

Context {platform : Platform}.

(** ** What one run of the vote handler does to the tables *)

Lemma snoc_neq {A : Type} (l : list A) (x : A) : l ++ [x] <> l.
Proof.
  intros Heq. apply (f_equal (@List.length A)) in Heq.
  rewrite length_app in Heq. simpl in Heq. lia.
Qed.

(** The four states in which a run can leave the database. *)
Lemma submitVote_outcomes env db req :
  snd (submitVote env db req) = db
  \/ (exists details,
        rejectionLog env = LogStored
        /\ snd (submitVote env db req)
           = insert_audit_log db "voter" "VOTE_REJECTED" "election" details)
  \/ (exists details,
        failureLog env = LogStored
        /\ snd (submitVote env db req)
           = insert_audit_log db "system" "TRANSACTION_FAILED"
               "blockchain_transaction" details)
  \/ snd (submitVote env db req) = with_ledger_row env db req
  \/ (exists voter_id,
        snd (submitVote env db req)
        = snd (insert_vote (with_ledger_row env db req)
                 (next_transaction_id db) (election_id req)
                 (candidate_id req) voter_id)).
Proof.
  unfold submitVote.
  destruct (missing_required req); [now left |].
  destruct (electionQuery env); [now left |].
  destruct (select_election db (election_id req)) as [|election erest];
    [now left |].
  destruct (eligibility_reason (request_instant env) election) as [reason |].
  - unfold rejectVote.
    destruct (rejectionLog env) eqn:Hlog; [| now left | now left].
    right. left. eexists. split; reflexivity.
  - unfold validateCandidate.
    destruct (candidateQuery env); [now left |].
    destruct (select_candidate db (candidate_id req)) as [|candidate crest];
      [now left |].
    destruct (loose_neq_number (c_election_id candidate) (election_id req));
      [now left |].
    destruct (negb (c_is_active candidate)); [now left |].
    unfold createTransaction.
    destruct (transactionQuery env) as [err |].
    + unfold transactionFailed.
      destruct (failureLog env) eqn:Hlog; [| now left | now left].
      right. right. left. eexists. split; reflexivity.
    + unfold insert_transaction, recordVote.
      destruct (plus_number (voter_address req) (voterHash_instant env))
        as [text |]; [| now (right; right; right; left)].
      destruct (voteQuery env); [now (right; right; right; left) |].
      right. right. right. right. eexists. reflexivity.
Qed.

(** X1: a run of the vote handler only appends.  It leaves the elections
    and the candidates as they are, and each of the ledger, the vote
    table and the audit log is what it was, or what it was with one row
    added at the end; no row is changed or removed.  A vote row is never
    added without a ledger row, and a run that writes an audit row writes
    neither. *)
Theorem submitVote_appends_only env db req :
  let db' := snd (submitVote env db req) in
  elections db' = elections db
  /\ candidates db' = candidates db
  /\ grows_by_at_most_one (blockchain_transactions db)
       (blockchain_transactions db')
  /\ grows_by_at_most_one (votes db) (votes db')
  /\ grows_by_at_most_one (audit_logs db) (audit_logs db')
  /\ (votes db' <> votes db ->
      blockchain_transactions db' <> blockchain_transactions db)
  /\ (audit_logs db' <> audit_logs db ->
      blockchain_transactions db' = blockchain_transactions db
      /\ votes db' = votes db).
Proof.
  unfold grows_by_at_most_one.
  destruct (submitVote_outcomes env db req)
    as [-> | [(d & _ & ->) | [(d & _ & ->) | [-> | (voter & ->)]]]];
    cbn; repeat split;
    try (now left); try (right; eexists; reflexivity);
    try (intros Hne; now contradiction Hne);
    try (intros _; apply snoc_neq);
    try (exfalso;
         match goal with Hne : ?x <> ?x |- _ => now apply Hne end).
Qed.

(** ** Keys and back-references *)

Lemma NoDup_snoc {A : Type} (l : list A) (x : A) :
  NoDup l -> ~ In x l -> NoDup (l ++ [x]).
Proof.
  intros Hnd Hnotin.
  apply (Permutation_NoDup (Permutation_cons_append l x)).
  now constructor.
Qed.

Lemma consistent_audit db user_type action resource_type details :
  consistent db ->
  consistent (insert_audit_log db user_type action resource_type details).
Proof. unfold consistent. cbn. tauto. Qed.

Lemma consistent_ledger env db req :
  consistent db -> consistent (with_ledger_row env db req).
Proof.
  unfold consistent. cbn.
  intros (Htx & Hv & Hndtx & Hndv & Hone & Hback).
  repeat split; try assumption.
  - intros tx Hin. apply in_app_or in Hin.
    destruct Hin as [Hin | [<- | []]]; [apply Htx in Hin |]; cbn; lia.
  - rewrite map_app. apply NoDup_snoc; [assumption |].
    cbn. intros Hin. apply in_map_iff in Hin.
    destruct Hin as (tx & Heq & Hin). apply Htx in Hin. lia.
  - intros v Hin. destruct (Hback v Hin) as (tx & Htxin & Hrest).
    exists tx. split; [apply in_or_app; now left | exact Hrest].
Qed.

Lemma consistent_vote env db req voter_id :
  consistent db ->
  consistent
    (snd (insert_vote (with_ledger_row env db req) (next_transaction_id db)
            (election_id req) (candidate_id req) voter_id)).
Proof.
  intros Hdb. pose proof (consistent_ledger env db req Hdb) as Hledger.
  destruct Hdb as (Htx0 & _ & _ & _ & _ & Hback0).
  revert Hledger. unfold consistent. cbn.
  intros (Htx & Hv & Hndtx & Hndv & Hone & Hback).
  repeat split; try assumption.
  - intros v Hin. apply in_app_or in Hin.
    destruct Hin as [Hin | [<- | []]]; [apply Hv in Hin |]; cbn; lia.
  - rewrite map_app. apply NoDup_snoc; [assumption |].
    cbn. intros Hin. apply in_map_iff in Hin.
    destruct Hin as (v & Heq & Hin). apply Hv in Hin. lia.
  - rewrite map_app. apply NoDup_snoc; [assumption |].
    cbn. intros Hin. apply in_map_iff in Hin.
    destruct Hin as (v & Heq & Hin).
    destruct (Hback0 v Hin) as (tx & Htxin & Hid & _).
    apply Htx0 in Htxin. lia.
  - intros v Hin. apply in_app_or in Hin.
    destruct Hin as [Hin | [<- | []]]; [now apply Hback |].
    exists (ledger_row env db req). cbn. repeat split.
    apply in_or_app. right. now left.
Qed.

(** X2: a run of the vote handler keeps the keys and the back-references
    in order.  If, before the run, the keys of the ledger and of the vote
    table are distinct and below the counters, and every vote row is the
    only one that points at its ledger row, which is confirmed and names
    the same election and candidate, then the same holds after the run,
    whatever the run meets. *)
Theorem submitVote_keeps_consistency env db req :
  consistent db -> consistent (snd (submitVote env db req)).
Proof.
  intros Hdb.
  destruct (submitVote_outcomes env db req)
    as [-> | [(d & _ & ->) | [(d & _ & ->) | [-> | (voter & ->)]]]].
  - exact Hdb.
  - now apply consistent_audit.
  - now apply consistent_audit.
  - now apply consistent_ledger.
  - now apply consistent_vote.
Qed.

(** ** What an answer or a new row tells *)

Lemma eligibility_allowed_inv now election :
  eligibility_reason now election = None ->
  e_status election = "active"
  /\ e_start_date election <= now <= e_end_date election.
Proof.
  unfold eligibility_reason.
  destruct (now <? e_start_date election) eqn:Hstart; [discriminate |].
  destruct (now >? e_end_date election) eqn:Hend; [discriminate |].
  destruct (String.eqb_spec (e_status election) "active") as [Hst | Hst];
    [| discriminate].
  intros _. apply Z.ltb_ge in Hstart.
  rewrite Z.gtb_ltb in Hend. apply Z.ltb_ge in Hend. tauto.
Qed.

Lemma reaches_ledger_write_valid env db req :
  reaches_ledger_write env db req ->
  missing_required req = false
  /\ exists election candidate,
       hd_error (select_election db (election_id req)) = Some election
       /\ e_status election = "active"
       /\ e_start_date election <= request_instant env
          <= e_end_date election
       /\ hd_error (select_candidate db (candidate_id req)) = Some candidate
       /\ loose_eq_number (c_election_id candidate) (election_id req) = true
       /\ c_is_active candidate = true.
Proof.
  intros ((Hm & _ & (election & erest & Hsel & Hreason) & _)
          & candidate & crest & Hcand & Hneq & Hact).
  split; [exact Hm |].
  destruct (eligibility_allowed_inv _ _ Hreason) as [Hst Hwin].
  exists election, candidate. rewrite Hsel, Hcand.
  unfold loose_neq_number in Hneq. apply negb_false_iff in Hneq.
  repeat split; assumption || apply Hwin.
Qed.

Lemma submitVote_at_ledger_write env db req :
  reaches_ledger_write env db req ->
  submitVote env db req = createTransaction env db req.
Proof.
  intros (Hreach & candidate & crest & Hcand & Hneq & Hact).
  rewrite (submitVote_reaches env db req Hreach), Hcand, Hneq, Hact.
  reflexivity.
Qed.

(** Every run that does not get as far as the ledger INSERT leaves the
    ledger and the vote table as they are and does not answer with a
    success. *)
Lemma submitVote_before_ledger_write env db req :
  reaches_ledger_write env db req
  \/ (blockchain_transactions (snd (submitVote env db req))
      = blockchain_transactions db
      /\ votes (snd (submitVote env db req)) = votes db
      /\ forall success hash message receipt,
           fst (submitVote env db req)
           <> Json 200 (VoteAccepted success hash message receipt)).
Proof.
  unfold reaches_ledger_write, reaches_candidate_checks, submitVote.
  destruct (missing_required req);
    [right; repeat split; intros; discriminate |].
  destruct (electionQuery env);
    [right; repeat split; intros; discriminate |].
  destruct (select_election db (election_id req)) as [|election erest];
    [right; repeat split; intros; discriminate |].
  destruct (eligibility_reason (request_instant env) election)
    as [reason |] eqn:Hreason.
  { right. unfold rejectVote.
    destruct (rejectionLog env); repeat split; intros; discriminate. }
  unfold validateCandidate.
  destruct (candidateQuery env);
    [right; repeat split; intros; discriminate |].
  destruct (select_candidate db (candidate_id req)) as [|candidate crest];
    [right; repeat split; intros; discriminate |].
  destruct (loose_neq_number (c_election_id candidate) (election_id req))
    eqn:Hneq;
    [right; repeat split; intros; discriminate |].
  destruct (c_is_active candidate) eqn:Hact;
    [| right; repeat split; intros; discriminate].
  left. repeat split; eauto 10.
Qed.

(** X3: a ledger row is written only for a ballot that is valid at the
    time of the run: the body passes the guard, the election exists, is
    [active] and is inside its window, the candidate exists, belongs to
    the election and is active.  The row that is written is the row of
    this ballot, with status [confirmed]. *)
Theorem ledger_row_only_for_valid_ballot env db req :
  blockchain_transactions (snd (submitVote env db req))
  <> blockchain_transactions db ->
  blockchain_transactions (snd (submitVote env db req))
  = blockchain_transactions db ++ [ledger_row env db req]
  /\ missing_required req = false
  /\ exists election candidate,
       hd_error (select_election db (election_id req)) = Some election
       /\ e_status election = "active"
       /\ e_start_date election <= request_instant env
          <= e_end_date election
       /\ hd_error (select_candidate db (candidate_id req)) = Some candidate
       /\ loose_eq_number (c_election_id candidate) (election_id req) = true
       /\ c_is_active candidate = true.
Proof.
  intros Hchanged.
  destruct (submitVote_before_ledger_write env db req)
    as [Hreach | (Hsame & _)]; [| now contradiction Hchanged].
  split; [| now apply reaches_ledger_write_valid].
  destruct (submitVote_outcomes env db req)
    as [Heq | [(d & _ & Heq) | [(d & _ & Heq) | [Heq | (voter & Heq)]]]];
    rewrite Heq in Hchanged |- *; cbn in Hchanged |- *;
    try reflexivity; now contradiction Hchanged.
Qed.

(** X4: a success answer is never sent without its rows.  When the client
    receives the success body, the ledger has gained the confirmed row of
    this ballot and the vote table a verified row that points at it; the
    hash in the body, the hash in the receipt and the hash of the ledger
    row are the same 64 characters; the receipt carries the key of the
    ledger row and the submitted election; and the voter column of the
    vote row is ['ANON_'] followed by the verification code. *)
Theorem success_answer_has_its_rows env db req success hash message receipt :
  fst (submitVote env db req)
  = Json 200 (VoteAccepted success hash message receipt) ->
  exists v,
    blockchain_transactions (snd (submitVote env db req))
    = blockchain_transactions db ++ [ledger_row env db req]
    /\ votes (snd (submitVote env db req)) = votes db ++ [v]
    /\ hash = tx_transaction_hash (ledger_row env db req)
    /\ transactionHash receipt = hash
    /\ String.length hash = 64%nat
    /\ transaction_id receipt = tx_id (ledger_row env db req)
    /\ receipt_election_id receipt = election_id req
    /\ v_transaction_id v = tx_id (ledger_row env db req)
    /\ v_election_id v = tx_election_id (ledger_row env db req)
    /\ v_candidate_id v = tx_candidate_id (ledger_row env db req)
    /\ v_verification_status v = "verified"
    /\ v_voter_id v = ("ANON_" ++ verification_code receipt)%string.
Proof.
  destruct (submitVote_before_ledger_write env db req)
    as [Hreach | (_ & _ & Hnever)];
    [| intros Hanswer; now apply Hnever in Hanswer].
  rewrite (submitVote_at_ledger_write env db req Hreach).
  unfold createTransaction.
  destruct (transactionQuery env) as [err |].
  { unfold transactionFailed.
    destruct (String.eqb (code err) "ER_DATA_TOO_LONG"), (failureLog env);
      intros Hanswer; discriminate Hanswer. }
  unfold insert_transaction, recordVote.
  destruct (plus_number (voter_address req) (voterHash_instant env))
    as [text |]; [| intros Hanswer; discriminate Hanswer].
  destruct (voteQuery env); [intros Hanswer; discriminate Hanswer |].
  unfold insert_vote. cbn -[generateTransactionHash].
  intros Hanswer. injection Hanswer as _ <- _ <-.
  eexists. cbn -[generateTransactionHash].
  repeat split.
Qed.

(** ** Failures after the checks *)

Lemma required_fields_truthy req :
  missing_required req = false ->
  truthy (election_id req) = true /\ truthy (candidate_id req) = true
  /\ truthy (voter_address req) = true /\ truthy (vote_data req) = true
  /\ truthy (signature req) = true.
Proof.
  unfold missing_required, js_not. intros Hm.
  repeat (apply orb_false_iff in Hm; destruct Hm as [Hm ?]).
  repeat match goal with
         | Hn : negb _ = false |- _ => apply negb_false_iff in Hn
         end.
  tauto.
Qed.

(** X5: when the ledger INSERT fails, nothing is written to the ledger or
    to the vote table and the answer is 500 [Transaction creation
    failed], whether the audit INSERT stores its row, fails or throws.
    If the audit row is stored it is a [TRANSACTION_FAILED] row of the
    [system] that records the error, the ballot, the hash that was tried
    and its length, 64; otherwise the database is left as it was. *)
Theorem ledger_failure_writes_no_row env db req err :
  reaches_ledger_write env db req ->
  transactionQuery env = Some err ->
  blockchain_transactions (snd (submitVote env db req))
  = blockchain_transactions db
  /\ votes (snd (submitVote env db req)) = votes db
  /\ (exists detail,
        fst (submitVote env db req)
        = Json 500 (ErrorBody "Transaction creation failed" detail))
  /\ (failureLog env = LogStored ->
      exists sample,
        audit_logs (snd (submitVote env db req))
        = audit_logs db
          ++ [{| a_user_type := "system";
                 a_action := "TRANSACTION_FAILED";
                 a_resource_type := "blockchain_transaction";
                 a_details :=
                   TransactionFailedDetails (error_text err) (code err)
                     (election_id req) (candidate_id req)
                     (voter_address req)
                     (generateTransactionHash (entropy env)) 64
                     sample (failure_instant env) |}])
  /\ (failureLog env <> LogStored -> snd (submitVote env db req) = db).
Proof.
  intros Hreach Htx.
  rewrite (submitVote_at_ledger_write env db req Hreach).
  unfold createTransaction. rewrite Htx. unfold transactionFailed.
  rewrite randomBytes_hash_length.
  destruct (failureLog env) eqn:Hlog;
    cbn -[generateTransactionHash]; repeat split;
    try (destruct (String.eqb (code err) "ER_DATA_TOO_LONG");
         eexists; reflexivity);
    try discriminate;
    try (intros _; eexists; reflexivity);
    try (intros Hne; now contradiction Hne).
Qed.

Lemma plus_number_textual v n :
  textual v = true -> exists text, plus_number v n = Some text.
Proof.
  destruct v; try discriminate; intros _; eexists; reflexivity.
Qed.

Lemma plus_number_not_textual v n :
  textual v = false -> plus_number v n = None.
Proof.
  destruct v; try discriminate; reflexivity.
Qed.

(** X6: when the ledger INSERT succeeds and the vote INSERT fails, the
    answer is 500 [Vote recording failed] and the confirmed ledger row
    stays, with no vote row beside it: nothing is rolled back. *)
Theorem vote_failure_leaves_ledger_row env db req err :
  reaches_ledger_write env db req ->
  transactionQuery env = None ->
  textual (voter_address req) = true ->
  voteQuery env = Some err ->
  submitVote env db req
  = (Json 500 (ErrorBody "Vote recording failed" None),
     with_ledger_row env db req).
Proof.
  intros Hreach Htx Htext Hvote.
  rewrite (submitVote_at_ledger_write env db req Hreach).
  unfold createTransaction. rewrite Htx.
  unfold insert_transaction, recordVote. rewrite Hvote.
  destruct (plus_number_textual _ (voterHash_instant env) Htext)
    as (text & ->).
  reflexivity.
Qed.

(** X7: a voter address that is a number or a boolean passes the guard when
    it is truthy, but [voter_address + Date.now()] is then a Number and
    the digest throws inside the callback: the ledger row has been
    written, no vote row is, and no response is sent. *)
Theorem non_text_address_stops_after_ledger_write env db req :
  reaches_ledger_write env db req ->
  transactionQuery env = None ->
  textual (voter_address req) = false ->
  submitVote env db req
  = (UncaughtException "TypeError", with_ledger_row env db req).
Proof.
  intros Hreach Htx Htext.
  rewrite (submitVote_at_ledger_write env db req Hreach).
  unfold createTransaction. rewrite Htx.
  unfold insert_transaction, recordVote.
  rewrite (plus_number_not_textual _ (voterHash_instant env) Htext).
  reflexivity.
Qed.

(** X8: a vote that the eligibility check rejects leaves one trace.  When
    the audit INSERT stores its row, the audit log gains a
    [VOTE_REJECTED] row of a [voter] with the reason, the status and the
    window of the election, the instant, and the candidate and the voter
    address as submitted, not anonymised; nothing else changes.  When the
    audit INSERT fails or throws, the database is left as it was. *)
Theorem rejected_vote_is_logged env db req election rest reason :
  missing_required req = false ->
  electionQuery env = None ->
  select_election db (election_id req) = election :: rest ->
  eligibility_reason (request_instant env) election = Some reason ->
  (rejectionLog env = LogStored ->
     snd (submitVote env db req)
     = insert_audit_log db "voter" "VOTE_REJECTED" "election"
         (VoteRejectedDetails reason (e_status election)
            (e_start_date election) (e_end_date election)
            (request_instant env) (candidate_id req) (voter_address req)))
  /\ (rejectionLog env <> LogStored -> snd (submitVote env db req) = db).
Proof.
  intros Hm Hq Hsel Hreason.
  rewrite (submitVote_election env db req election rest Hm Hq Hsel), Hreason.
  destruct (required_fields_truthy req Hm) as (_ & Hc & Hv & _).
  unfold rejectVote, js_or. rewrite Hc, Hv.
  destruct (rejectionLog env); split;
    try reflexivity; try discriminate;
    intros Hne; now contradiction Hne.
Qed.

Lemma unknown_election_404 env db req :
  missing_required req = false ->
  electionQuery env = None ->
  select_election db (election_id req) = [] ->
  submitVote env db req
  = (Json 404 (ErrorBody "Election not found" None), db).
Proof.
  intros Hm Hq Hsel. unfold submitVote. rewrite Hm, Hq, Hsel. reflexivity.
Qed.


(** ** Voting twice *)

Lemma submitVote_keeps_directory env db req :
  elections (snd (submitVote env db req)) = elections db
  /\ candidates (snd (submitVote env db req)) = candidates db.
Proof.
  destruct (submitVote_outcomes env db req)
    as [-> | [(d & _ & ->) | [(d & _ & ->) | [-> | (voter & ->)]]]];
    split; reflexivity.
Qed.

Lemma valid_submission_recorded env db req election candidate :
  storage_answers env ->
  missing_required req = false ->
  textual (voter_address req) = true ->
  hd_error (select_election db (election_id req)) = Some election ->
  e_status election = "active" ->
  e_start_date election <= request_instant env <= e_end_date election ->
  hd_error (select_candidate db (candidate_id req)) = Some candidate ->
  loose_eq_number (c_election_id candidate) (election_id req) = true ->
  c_is_active candidate = true ->
  vote_recorded db req (submitVote env db req).
Proof.
  intros (Hq1 & Hq2 & Hq3 & Hq4) Hm Htext Hsel Hst Hwin Hcand Heq Hact.
  destruct (select_election db (election_id req)) as [|e erest] eqn:Hse;
    simpl in Hsel; [discriminate | injection Hsel as ->].
  destruct (select_candidate db (candidate_id req)) as [|c crest] eqn:Hsc;
    simpl in Hcand; [discriminate | injection Hcand as ->].
  rewrite (submitVote_election env db req election erest Hm Hq1 Hse).
  rewrite (eligibility_allowed _ _ Hst Hwin).
  rewrite (validateCandidate_accepts env db req candidate crest
             Hq2 Hsc Heq Hact).
  now apply createTransaction_records.
Qed.

Lemma success_rows env db req :
  vote_recorded db req (submitVote env db req) ->
  exists v,
    blockchain_transactions (snd (submitVote env db req))
    = blockchain_transactions db ++ [ledger_row env db req]
    /\ votes (snd (submitVote env db req)) = votes db ++ [v].
Proof.
  intros (tx & v & message & receipt & Hanswer & Hledger & _ & Hvotes & _).
  exists v. split; [| exact Hvotes].
  destruct (submitVote_outcomes env db req)
    as [Heq | [(d & _ & Heq) | [(d & _ & Heq) | [Heq | (voter & Heq)]]]];
    rewrite Heq in Hledger, Hvotes |- *; cbn in Hledger, Hvotes |- *;
    try reflexivity;
    try (symmetry in Hledger; now apply snoc_neq in Hledger);
    try (symmetry in Hvotes; now apply snoc_neq in Hvotes).
Qed.

(** X9: the handler does not look for an earlier vote.  A ballot that is
    recorded in one run is recorded again when the same body is submitted
    in a later run inside the window: after the two runs the ledger and
    the vote table each hold two more rows for the same voter address. *)
Theorem same_ballot_is_recorded_twice env1 env2 db req election candidate :
  storage_answers env1 ->
  storage_answers env2 ->
  missing_required req = false ->
  textual (voter_address req) = true ->
  hd_error (select_election db (election_id req)) = Some election ->
  e_status election = "active" ->
  e_start_date election <= request_instant env1 <= e_end_date election ->
  e_start_date election <= request_instant env2 <= e_end_date election ->
  hd_error (select_candidate db (candidate_id req)) = Some candidate ->
  loose_eq_number (c_election_id candidate) (election_id req) = true ->
  c_is_active candidate = true ->
  let db1 := snd (submitVote env1 db req) in
  let db2 := snd (submitVote env2 db1 req) in
  vote_recorded db req (submitVote env1 db req)
  /\ vote_recorded db1 req (submitVote env2 db1 req)
  /\ exists tx1 tx2 v1 v2,
       blockchain_transactions db2
       = blockchain_transactions db ++ [tx1; tx2]
       /\ votes db2 = votes db ++ [v1; v2]
       /\ tx_voter_address tx1 = voter_address req
       /\ tx_voter_address tx2 = voter_address req.
Proof.
  intros Hs1 Hs2 Hm Htext Hsel Hst Hwin1 Hwin2 Hcand Heq Hact db1 db2.
  pose proof (valid_submission_recorded env1 db req election candidate
                Hs1 Hm Htext Hsel Hst Hwin1 Hcand Heq Hact) as Hfirst.
  destruct (submitVote_keeps_directory env1 db req) as [Hel Hca].
  assert (Hsecond : vote_recorded db1 req (submitVote env2 db1 req)).
  { apply (valid_submission_recorded env2 db1 req election candidate);
      try assumption.
    - unfold select_election. subst db1. now rewrite Hel.
    - unfold select_candidate. subst db1. now rewrite Hca. }
  split; [exact Hfirst | split; [exact Hsecond |]].
  destruct (success_rows env1 db req Hfirst) as (v1 & Hl1 & Hv1).
  destruct (success_rows env2 db1 req Hsecond) as (v2 & Hl2 & Hv2).
  exists (ledger_row env1 db req), (ledger_row env2 db1 req), v1, v2.
  subst db2. rewrite Hl2, Hv2. subst db1. rewrite Hl1, Hv1.
  rewrite <- !app_assoc. repeat split.
Qed.

(** ** More on the tally *)

Lemma insert_desc_HdRel x r rows :
  r_vote_count r < r_vote_count x ->
  HdRel (fun a b => r_vote_count b <= r_vote_count a) x rows ->
  HdRel (fun a b => r_vote_count b <= r_vote_count a) x (insert_desc r rows).
Proof.
  intros Hlt Hhd. destruct rows as [|y rest]; simpl.
  - constructor. lia.
  - destruct (r_vote_count y <=? r_vote_count r); constructor.
    + lia.
    + now inversion Hhd.
Qed.

Lemma insert_desc_sorted r rows :
  Sorted (fun a b => r_vote_count b <= r_vote_count a) rows ->
  Sorted (fun a b => r_vote_count b <= r_vote_count a) (insert_desc r rows).
Proof.
  induction rows as [|x rest IH]; simpl; intros Hs.
  - repeat constructor.
  - destruct (Z.leb_spec (r_vote_count x) (r_vote_count r)).
    + constructor; [exact Hs | now constructor].
    + inversion Hs as [|? ? Hrest Hhd]; subst.
      constructor; [now apply IH | now apply insert_desc_HdRel].
Qed.

Lemma order_by_sorted rows :
  Sorted (fun a b => r_vote_count b <= r_vote_count a)
    (order_by_vote_count_desc rows).
Proof.
  induction rows as [|r rest IH]; simpl; [constructor |].
  now apply insert_desc_sorted.
Qed.

(** X13: the rows of the results come by descending vote count: no row is
    followed, at any distance, by a row with more votes. *)
Theorem results_by_descending_count queryErr db id totalVotes rows :
  getResults queryErr db id = Json 200 (ResultsBody totalVotes rows) ->
  StronglySorted (fun a b => r_vote_count b <= r_vote_count a) rows.
Proof.
  intros Hbody. destruct (getResults_body _ _ _ _ _ Hbody) as [-> _].
  apply Sorted_StronglySorted.
  - intros a b c Hab Hbc. lia.
  - apply order_by_sorted.
Qed.

(** X14: the results list the active candidates of the election, each one
    once and no one else: every row is the row of such a candidate, with
    its name and its count of verified votes, and every such candidate
    has a row.  A deactivated candidate and a candidate of another
    election have none. *)
Theorem results_list_active_candidates queryErr db id totalVotes rows :
  getResults queryErr db id = Json 200 (ResultsBody totalVotes rows) ->
  List.length rows
  = List.length (filter (listed (JStr id)) (candidates db))
  /\ (forall r, In r rows ->
        exists c, In c (candidates db)
                  /\ sql_eq (Some (c_election_id c)) (JStr id) = true
                  /\ c_is_active c = true
                  /\ r_id r = c_id c /\ r_name r = c_name c
                  /\ r_vote_count r = vote_count db c)
  /\ (forall c, In c (candidates db) ->
        sql_eq (Some (c_election_id c)) (JStr id) = true ->
        c_is_active c = true ->
        exists r, In r rows /\ r_id r = c_id c).
Proof.
  intros Hbody. destruct (getResults_body _ _ _ _ _ Hbody) as [-> _].
  unfold results_query. repeat split.
  - rewrite <- (Permutation_length (order_by_perm _)). apply length_map.
  - intros r Hr.
    apply (Permutation_in _ (Permutation_sym (order_by_perm _))) in Hr.
    apply in_map_iff in Hr. destruct Hr as (c & <- & Hc).
    apply filter_In in Hc. destruct Hc as [Hin Hlisted].
    apply andb_true_iff in Hlisted. exists c. cbn. tauto.
  - intros c Hin Hel Hact. eexists. split.
    + apply (Permutation_in _ (order_by_perm _)), in_map_iff.
      exists c. split; [reflexivity |].
      apply filter_In. split; [exact Hin |].
      unfold listed. now rewrite Hel, Hact.
    + reflexivity.
Qed.

Lemma Zsum_member {A : Type} (f : A -> Z) (l : list A) (x : A) :
  (forall y, 0 <= f y) -> In x l -> f x <= Zsum (map f l).
Proof.
  intros Hf. induction l as [|y rest IH]; simpl; [contradiction |].
  assert (0 <= Zsum (map f rest)).
  { clear IH. induction rest as [|z rest IH]; simpl; [lia |].
    specialize (Hf z). lia. }
  intros [-> | Hin]; [lia |]. specialize (IH Hin). specialize (Hf y). lia.
Qed.

Lemma unlisted_votes_nonneg db id : 0 <= unlisted_votes db id.
Proof.
  unfold unlisted_votes.
  induction (filter _ (candidates db)) as [|c rest IH]; simpl; [lia |].
  pose proof (vote_count_nonneg db c). lia.
Qed.

Lemma round_2dp_bounds count total :
  0 <= count <= total -> 0 < total ->
  0 <= round_2dp (inject_Z (count * 100) / inject_Z total) <= 10000.
Proof.
  intros Hcount Htotal. unfold round_2dp.
  destruct total as [|p|p]; try lia.
  split.
  - change 0 with (Qfloor (inject_Z 0)). apply Qfloor_resp_le.
    unfold Qle, Qdiv, Qinv, Qmult, Qplus, inject_Z. simpl. nia.
  - change 10000 with (Qfloor (20001 # 2)). apply Qfloor_resp_le.
    unfold Qle, Qdiv, Qinv, Qmult, Qplus, inject_Z. simpl. nia.
Qed.

(** X15: a percentage in the results, when it is not NULL, lies between
    0.00 and 100.00. *)
Theorem percentages_within_bounds queryErr db id totalVotes rows r p :
  getResults queryErr db id = Json 200 (ResultsBody totalVotes rows) ->
  In r rows ->
  r_percentage r = Some p ->
  0 <= p <= 10000.
Proof.
  intros Hbody Hr Hp.
  destruct (getResults_body _ _ _ _ _ Hbody) as [-> _].
  pose proof Hr as Hrow.
  apply results_query_rows in Hrow.
  destruct Hrow as (c & _ & _ & Hpct).
  unfold results_query in Hr.
  apply (Permutation_in _ (Permutation_sym (order_by_perm _))) in Hr.
  apply in_map_iff in Hr. destruct Hr as (c' & <- & Hc').
  cbn in Hp. clear Hpct c.
  assert (Hle : vote_count db c' <= total_votes db (JStr id)).
  { rewrite total_votes_by_candidate.
    pose proof (unlisted_votes_nonneg db (JStr id)).
    pose proof (Zsum_member (vote_count db) _ c' (vote_count_nonneg db) Hc').
    lia. }
  pose proof (vote_count_nonneg db c') as Hnn.
  rewrite percentage_spec in Hp
    by (assumption || apply total_votes_nonneg).
  unfold spec_percentage in Hp.
  destruct (Z.eqb_spec (total_votes db (JStr id)) 0) as [Hz | Hnz];
    [discriminate |].
  injection Hp as <-.
  apply round_2dp_bounds; lia.
Qed.

Lemma filter_none {A : Type} (p : A -> bool) (l : list A) :
  (forall x, In x l -> p x = false) -> filter p l = [].
Proof.
  induction l as [|x rest IH]; simpl; [reflexivity |].
  intros Hp. rewrite (Hp x (or_introl eq_refl)).
  apply IH. intros y Hy. apply Hp. now right.
Qed.

(** X16: the results of an election that has no candidate, or that does not
    exist, are an empty list with total 0 and status 200; the handler
    does not look the election up and never answers 404. *)
Theorem results_of_unknown_election db id :
  (forall c, In c (candidates db) ->
             sql_eq (Some (c_election_id c)) (JStr id) = false) ->
  getResults None db id = Json 200 (ResultsBody 0 []).
Proof.
  intros Hnone. unfold getResults, results_query.
  rewrite (filter_none (listed (JStr id))); [reflexivity |].
  intros c Hc. unfold listed. now rewrite (Hnone c Hc).
Qed.

Lemma vote_count_add_unverified db v c :
  verified v = false -> vote_count (add_vote db v) c = vote_count db c.
Proof.
  intros Hv. unfold vote_count, add_vote. cbn.
  rewrite filter_app. simpl. rewrite Hv, andb_false_r.
  now rewrite app_nil_r.
Qed.

Lemma total_votes_add_unverified db v id :
  verified v = false -> total_votes (add_vote db v) id = total_votes db id.
Proof.
  intros Hv. unfold total_votes, add_vote. cbn.
  rewrite flat_map_app. simpl.
  rewrite (filter_none _ (candidates db)).
  - now rewrite !app_nil_r.
  - intros c _. now rewrite Hv, andb_false_r.
Qed.

(** X17: a vote row whose status is not [verified] has no effect on the
    results: with or without it the answer is the same. *)
Theorem unverified_vote_is_not_tallied queryErr db v id :
  verified v = false ->
  getResults queryErr (add_vote db v) id = getResults queryErr db id.
Proof.
  intros Hv. unfold getResults, results_query.
  destruct queryErr; [reflexivity |].
  rewrite total_votes_add_unverified by exact Hv.
  change (candidates (add_vote db v)) with (candidates db).
  rewrite (map_ext
             (fun c =>
                {| r_id := c_id c; r_name := c_name c; r_party := c_party c;
                   r_photo_url := c_photo_url c;
                   r_vote_count := vote_count (add_vote db v) c;
                   r_percentage :=
                     Sql.percentage (vote_count (add_vote db v) c)
                       (total_votes db (JStr id)) |})
             (fun c =>
                {| r_id := c_id c; r_name := c_name c; r_party := c_party c;
                   r_photo_url := c_photo_url c;
                   r_vote_count := vote_count db c;
                   r_percentage :=
                     Sql.percentage (vote_count db c)
                       (total_votes db (JStr id)) |}));
    [reflexivity |].
  intros c. now rewrite vote_count_add_unverified.
Qed.

(** ** Deactivating a candidate, removing an election *)

Lemma deleteCandidate_state db id :
  snd (deleteCandidate None db id)
  = {| elections := elections db;
       candidates :=
         map (fun c =>
                if sql_eq (Some (c_id c)) (JStr id)
                then {| c_id := c_id c;
                        c_election_id := c_election_id c;
                        c_name := c_name c;
                        c_party := c_party c;
                        c_photo_url := c_photo_url c;
                        c_is_active := false |}
                else c)
           (candidates db);
       blockchain_transactions := blockchain_transactions db;
       votes := votes db;
       audit_logs := audit_logs db;
       next_transaction_id := next_transaction_id db;
       next_vote_id := next_vote_id db |}.
Proof.
  unfold deleteCandidate.
  destruct (List.length _ =? 0)%nat; reflexivity.
Qed.

(** X18: removing a candidate is a deactivation.  The candidate table keeps
    all its rows, with the same keys and elections in the same order; the
    rows with the given key are inactive afterwards and every other row
    is as before; the elections, the ledger and the votes, those of the
    deactivated candidate included, are not touched. *)
Theorem deleteCandidate_is_soft db id :
  let db' := snd (deleteCandidate None db id) in
  map c_id (candidates db') = map c_id (candidates db)
  /\ map c_election_id (candidates db') = map c_election_id (candidates db)
  /\ (forall c, In c (candidates db') ->
        sql_eq (Some (c_id c)) (JStr id) = true -> c_is_active c = false)
  /\ (forall c, In c (candidates db) ->
        sql_eq (Some (c_id c)) (JStr id) = false -> In c (candidates db'))
  /\ elections db' = elections db
  /\ blockchain_transactions db' = blockchain_transactions db
  /\ votes db' = votes db.
Proof.
  cbv zeta. rewrite deleteCandidate_state.
  cbn [candidates elections votes blockchain_transactions]. repeat split.
  - rewrite map_map. apply map_ext. intros c.
    destruct (sql_eq (Some (c_id c)) (JStr id)); reflexivity.
  - rewrite map_map. apply map_ext. intros c.
    destruct (sql_eq (Some (c_id c)) (JStr id)); reflexivity.
  - intros c Hin Hhit. apply in_map_iff in Hin.
    destruct Hin as (c0 & <- & _).
    destruct (sql_eq (Some (c_id c0)) (JStr id)) eqn:Hc0;
      [reflexivity | congruence].
  - intros c Hin Hmiss. apply in_map_iff. exists c.
    now rewrite Hmiss.
Qed.

Lemma sql_eq_same_key column v w :
  sql_number v = sql_number w -> sql_eq column v = sql_eq column w.
Proof. unfold sql_eq. now intros ->. Qed.



Lemma filter_out_then_in {A : Type} (p : A -> bool) (l : list A) :
  filter p (filter (fun x => negb (p x)) l) = [].
Proof.
  induction l as [|x rest IH]; simpl; [reflexivity |].
  destruct (p x) eqn:Hp; simpl; [exact IH | now rewrite Hp].
Qed.

(** X21: once the handler has reported an election as deleted, a ballot
    for it is answered 404 [Election not found] and writes nothing, in
    every state whose election table is the one that the DELETE left,
    whatever the other tables hold. *)
Theorem no_vote_for_deleted_election env fault db db' req id :
  missing_required req = false ->
  electionQuery env = None ->
  sql_number (election_id req) = sql_number (JStr id) ->
  fst (deleteElection fault db id)
  = Json 200 (MessageBody "Election deleted successfully") ->
  elections db' = elections (snd (deleteElection fault db id)) ->
  submitVote env db' req
  = (Json 404 (ErrorBody "Election not found" None), db').
Proof.
  intros Hm Hq Hkey Hdone Hleft.
  apply unknown_election_404; try assumption.
  unfold select_election. rewrite Hleft.
  rewrite (filter_ext _ (fun e => sql_eq (Some (e_id e)) (JStr id)))
    by (intros e; apply sql_eq_same_key, Hkey).
  unfold deleteElection, delete_from_elections in *.
  destruct fault as [err|]; [discriminate Hdone|].
  destruct (existsb _ (blockchain_transactions db));
    [discriminate Hdone|].
  destruct (List.length _ =? 0)%nat; cbn [snd elections];
    apply filter_out_then_in.
Qed.

Lemma total_votes_after_deactivation db id bound :
  total_votes (snd (deleteCandidate None db id)) bound
  = total_votes db bound.
Proof.
  rewrite deleteCandidate_state. unfold total_votes.
  cbn [votes candidates]. f_equal. rewrite !length_flat_map. f_equal.
  apply map_ext. intros v2.
  induction (candidates db) as [|x l IH]; [reflexivity |].
  cbn [map filter].
  destruct (sql_eq (Some (c_id x)) (JStr id)); cbn [c_id c_election_id];
    destruct (Sql.option_Z_eqb (v_candidate_id v2) (Some (c_id x))
              && sql_eq (Some (c_election_id x)) bound && verified v2);
    cbn [List.length]; now rewrite IH.
Qed.

Lemma vote_count_after_deactivation db id c :
  vote_count (snd (deleteCandidate None db id)) c = vote_count db c.
Proof. rewrite deleteCandidate_state. reflexivity. Qed.

(** X20: deactivating a candidate takes its row, and only its row, out of
    the results: the rows that remain are rows of the earlier answer,
    with the same counts and the same percentages, and every earlier row
    of another candidate remains. *)
Theorem deactivation_removes_only_its_row db id id' totalVotes rows
    totalVotes' rows' :
  getResults None db id' = Json 200 (ResultsBody totalVotes rows) ->
  getResults None (snd (deleteCandidate None db id)) id'
  = Json 200 (ResultsBody totalVotes' rows') ->
  forall r,
    In r rows'
    <-> In r rows /\ sql_eq (Some (r_id r)) (JStr id) = false.
Proof.
  intros Hbefore Hafter r.
  destruct (getResults_body _ _ _ _ _ Hbefore) as [-> _].
  destruct (getResults_body _ _ _ _ _ Hafter) as [-> _].
  unfold results_query.
  rewrite total_votes_after_deactivation.
  split.
  - intros Hr.
    apply (Permutation_in _ (Permutation_sym (order_by_perm _))) in Hr.
    apply in_map_iff in Hr. destruct Hr as (c' & <- & Hc').
    apply filter_In in Hc'. destruct Hc' as [Hin Hlisted].
    rewrite deleteCandidate_state in Hin. cbn [candidates] in Hin.
    apply in_map_iff in Hin. destruct Hin as (c & Heq & Hin).
    destruct (sql_eq (Some (c_id c)) (JStr id)) eqn:Hhit; subst c'.
    + unfold listed in Hlisted. cbn in Hlisted.
      rewrite andb_false_r in Hlisted. discriminate Hlisted.
    + split; [| exact Hhit].
      apply (Permutation_in _ (order_by_perm _)), in_map_iff.
      exists c. split; [now rewrite vote_count_after_deactivation |].
      apply filter_In. now split.
  - intros [Hr Hmiss].
    apply (Permutation_in _ (Permutation_sym (order_by_perm _))) in Hr.
    apply in_map_iff in Hr. destruct Hr as (c & <- & Hc).
    apply filter_In in Hc. destruct Hc as [Hin Hlisted].
    cbn [r_id] in Hmiss.
    apply (Permutation_in _ (order_by_perm _)), in_map_iff.
    exists c. split; [now rewrite vote_count_after_deactivation |].
    apply filter_In. split; [| exact Hlisted].
    rewrite deleteCandidate_state. cbn [candidates].
    apply in_map_iff. exists c. now rewrite Hmiss.
Qed.

End Coverage.

(** * The handlers on the small database *)

Section Runs.

#[local] Existing Instance example_platform.

Example percentages_3_1_0 :
  map (fun count => Sql.percentage count 4) [3; 1; 0]
  = [Some 7500; Some 2500; Some 0]
  /\ map (fun count => Sql.percentage count 0) [0; 0] = [None; None].
Proof. split; reflexivity. Qed.

Example payload_zero_is_refused :
  all_present zero_payload_ballot = true
  /\ submitVote calm db0 zero_payload_ballot = (InvalidInput, db0).
Proof. split; reflexivity. Qed.

(** The tally after candidate 2, who holds one of the two verified votes
    of election 1, has been deactivated. *)
Example results_after_deactivation :
  getResults None db_after_deactivation "1"
  = Json 200
      (ResultsBody 1
         [{| r_id := 1; r_name := "Shubham Boladra";
             r_party := "Democratic Party"; r_photo_url := "";
             r_vote_count := 1; r_percentage := Some 5000 |}])
  /\ List.length (verified_votes_of db_after_deactivation (JStr "1"))
     = 2%nat.
Proof. split; reflexivity. Qed.

Example foreign_candidate_before_start :
  select_candidate db0 (candidate_id (ballot 2 1)) = [boladra]
  /\ loose_neq_number (c_election_id boladra) (election_id (ballot 2 1))
     = true
  /\ fst (submitVote calm db0 (ballot 2 1))
     = rejection "not_started" council 1500.
Proof. repeat split. Qed.

Example delete_referenced_election :
  referenced db_with_referendum (JStr "1")
  /\ In presidential (elections db_with_referendum)
  /\ deleteElection None db_with_referendum "1"
     = (Json 500 (ErrorBody "Database error" None), db_with_referendum)
  /\ deleteElection None db_with_referendum "3"
     = (Json 200 (MessageBody "Election deleted successfully"),
        db_after_one_vote)
  /\ deleteElection None db_after_one_vote "3"
     = (Json 404 (ErrorBody "Election not found" None), db_after_one_vote).
Proof.
  repeat split.
  - eexists. split; [left; reflexivity | reflexivity].
  - left. reflexivity.
Qed.

(** C1 fails as worded: the ballot whose payload is the number [0] has all
    five properties and meets every other condition, and is refused. *)
Lemma present_submission_refused : ~ present_submissions_accepted.
Proof.
  intros Hclaim.
  destruct (Hclaim calm db0 zero_payload_ballot presidential boladra)
    as (tx & v & message & receipt & Hanswer & _);
    try reflexivity.
  - cbn. lia.
  - vm_compute in Hanswer. discriminate Hanswer.
Qed.

(** C4 fails as worded: with one verified vote held by a deactivated
    candidate, [total_votes] is 1 and the election has 2 verified votes. *)
Lemma tally_misses_deactivated_candidate : ~ tally_matches_vote_store.
Proof.
  intros Hclaim.
  destruct (Hclaim None db_after_deactivation "1" _ _ eq_refl)
    as [_ Hcount].
  vm_compute in Hcount. discriminate Hcount.
Qed.

(** C5, at the failing input: two verified votes in election 1, one for
    candidate 1 and one for candidate 2, who has since been deactivated.
    The answer carries [total_votes] 1 and one row, with [vote_count] 1
    and percentage 50.00, where round(1 * 100 / 1, 2) is 100.00: the
    divisor is the count of the derived table, 2. *)
Theorem percentage_disagrees_with_totalVotes :
  getResults None db_after_deactivation "1"
  = Json 200
      (ResultsBody 1
         [{| r_id := 1; r_name := "Shubham Boladra";
             r_party := "Democratic Party"; r_photo_url := "";
             r_vote_count := 1; r_percentage := Some 5000 |}])
  /\ spec_percentage 1 1 = Some 10000
  /\ total_votes db_after_deactivation (JStr "1") = 2.
Proof. repeat split. Qed.

(** Hence the percentages are not taken against [total_votes] of the
    answer. *)
Lemma percentage_not_against_totalVotes : ~ percentages_against_totalVotes.
Proof.
  intros Hclaim.
  destruct (Hclaim None db_after_deactivation "1" _ _ eq_refl)
    as [Hpct _].
  assert (Hvotes : verified_votes_of db_after_deactivation (JStr "1") <> [])
    by (vm_compute; discriminate).
  specialize (Hpct Hvotes _ (or_introl eq_refl)).
  vm_compute in Hpct. discriminate Hpct.
Qed.

(** C6 fails as worded: a ballot for a candidate of another election, cast
    before the submitted election has started, is rejected with
    [not_started], not with the wrong-election answer. *)
Lemma foreign_candidate_other_rejection :
  ~ foreign_candidate_always_wrong_election.
Proof.
  intros Hclaim.
  destruct (Hclaim calm db0 (ballot 2 1) boladra [] eq_refl eq_refl)
    as [Hanswer _].
  vm_compute in Hanswer. discriminate Hanswer.
Qed.

(** ** The theorems at concrete inputs *)

Lemma transaction_hash_witness :
  List.length (randomBytes 31 (entropy calm)) = 31%nat
  /\ generateTransactionHash (entropy calm)
     = ("0x" ++ Hex.toString_hex (randomBytes 31 (entropy calm)))%string
  /\ String.length (generateTransactionHash (entropy calm)) = 64%nat
  /\ transactionHashOf (repeat xff 31)
     = "0xffffffffffffffffffffffffffffffffffffffffffffffffffffffffffffff"%string.
Proof.
  destruct (transaction_hash_has_64_characters (entropy calm))
    as (Hbytes & Htext & Hsize & Hany).
  split; [exact Hbytes|].
  split; [exact Htext|].
  split; [exact Hsize|].
  rewrite (proj2 (Hany (repeat xff 31) eq_refl)). reflexivity.
Defined.

Lemma missing_field_witness :
  submitVote calm db0 (drop_field F_signature (ballot 1 1))
  = (InvalidInput, db0).
Proof.
  apply (missing_field_is_invalid_input (platform := example_platform) calm db0
           (drop_field F_signature (ballot 1 1)) F_signature).
  reflexivity.
Defined.

Lemma falsy_field_witness :
  submitVote calm db0 zero_payload_ballot = (InvalidInput, db0)
  /\ submitVote calm db0 zero_payload_ballot
     = submitVote calm db0 (drop_field F_vote_data zero_payload_ballot).
Proof.
  apply (falsy_field_is_invalid_input (platform := example_platform)
           calm db0 zero_payload_ballot F_vote_data).
  reflexivity.
Defined.

Lemma eligibility_order_witness :
  (eligibility_reason 1500 council = Some "not_started"
   /\ fst (submitVote calm db0 (ballot 2 3))
      = rejection "not_started" council 1500)
  /\ (eligibility_reason 1500 presidential = None
      /\ submitVote calm db0 (ballot 1 1)
         = validateCandidate calm db0 (ballot 1 1)).
Proof.
  split.
  - apply (proj1 (eligibility_reason_order (platform := example_platform)
                    calm db0 (ballot 2 3) council []
                    eq_refl eq_refl eq_refl)).
    simpl. lia.
  - apply (proj2 (proj2 (proj2
             (eligibility_reason_order (platform := example_platform)
                calm db0 (ballot 1 1) presidential []
                eq_refl eq_refl eq_refl)))).
    + simpl. lia.
    + reflexivity.
Defined.

Lemma rejection_witness :
  let timeout :=
    {| code := "ETIMEDOUT"; sqlMessage := None;
       message := "connect ETIMEDOUT" |} in
  let answer :=
    Json 400
      (RejectionBody "Election is not currently accepting votes"
         "not_started" "draft" 5000 6000 1500) in
  fst (submitVote (with_rejectionLog LogStored calm) db0 (ballot 2 3))
  = answer
  /\ fst (submitVote (with_rejectionLog (LogFailed timeout) calm) db0
            (ballot 2 3))
     = answer
  /\ fst (submitVote (with_rejectionLog LogThrew calm) db0 (ballot 2 3))
     = answer.
Proof.
  pose proof (rejection_survives_audit_failure (platform := example_platform)
                calm db0 (ballot 2 3) council [] "not_started"
                eq_refl eq_refl eq_refl eq_refl) as Hsame.
  repeat split; apply Hsame.
Defined.

Lemma recorded_witness :
  vote_recorded db0 (ballot 1 1) (submitVote calm db0 (ballot 1 1)).
Proof.
  apply (truthy_submission_is_recorded (platform := example_platform)
           calm db0 (ballot 1 1) presidential boladra); try reflexivity.
  - repeat split.
  - simpl. lia.
Defined.

Lemma candidate_checks_witness :
  submitVote calm db0 (ballot 1 3) = (WrongElection, db0)
  /\ blockchain_transactions (snd (submitVote calm db0 (ballot 2 1)))
     = blockchain_transactions db0.
Proof.
  split.
  - apply (proj1 (proj2 (proj2 (candidate_checks_in_order
                                  (platform := example_platform) calm db0
                                  (ballot 1 3))
                           (conj eq_refl
                              (conj eq_refl
                                 (conj (ex_intro _ presidential
                                          (ex_intro _ []
                                             (conj eq_refl eq_refl)))
                                    eq_refl)))))
             kumar [] eq_refl eq_refl).
  - apply (proj1 (candidate_checks_in_order (platform := example_platform)
                    calm db0 (ballot 2 1))
             boladra [] eq_refl eq_refl).
Defined.

Lemma deleteElection_witness :
  referenced db_after_one_vote (JStr "1")
  /\ deleteElection None db_after_one_vote "1"
     = (Json 500 (ErrorBody "Database error" None), db_after_one_vote)
  /\ In presidential
       (elections (snd (deleteElection None db_after_one_vote "1"))).
Proof.
  assert (Href : referenced db_after_one_vote (JStr "1")).
  { eexists. split; [left; reflexivity | reflexivity]. }
  destruct (referenced_election_is_kept (platform := example_platform)
              None db_after_one_vote "1" Href) as [Hkept Hstays].
  split; [exact Href|].
  split; [exact Hkept|].
  apply Hstays; [left; reflexivity | reflexivity].
Defined.

Lemma candidate_keys_distinct :
  NoDup (map c_id (candidates db_after_deactivation)).
Proof.
  repeat constructor; simpl; intuition discriminate.
Qed.

Lemma totalVotes_witness :
  1 = Zsum [1]
  /\ 1 = Z.of_nat (List.length (listed_votes_of db_after_deactivation
                                  (JStr "1"))).
Proof.
  apply (totalVotes_counts_listed_votes (platform := example_platform)
           None db_after_deactivation "1" 1
           [{| r_id := 1; r_name := "Shubham Boladra";
               r_party := "Democratic Party"; r_photo_url := "";
               r_vote_count := 1; r_percentage := Some 5000 |}]).
  - exact candidate_keys_distinct.
  - reflexivity.
Defined.

Example percentages_after_one_vote :
  (1 <> 0 ->
   forall r,
     In r [{| r_id := 1; r_name := "Shubham Boladra";
              r_party := "Democratic Party"; r_photo_url := "";
              r_vote_count := 1; r_percentage := Some 10000 |};
           {| r_id := 2; r_name := "Lokesh Kasar";
              r_party := "Republican Party"; r_photo_url := "";
              r_vote_count := 0; r_percentage := Some 0 |}] ->
     r_percentage r
     = Some (round_2dp (inject_Z (r_vote_count r * 100) / inject_Z 1)))
  /\ (1 = 0 ->
      forall r,
        In r [{| r_id := 1; r_name := "Shubham Boladra";
                 r_party := "Democratic Party"; r_photo_url := "";
                 r_vote_count := 1; r_percentage := Some 10000 |};
              {| r_id := 2; r_name := "Lokesh Kasar";
                 r_party := "Republican Party"; r_photo_url := "";
                 r_vote_count := 0; r_percentage := Some 0 |}] ->
        r_percentage r = None).
Proof.
  apply (percentages_against_totalVotes_when_all_listed
           (platform := example_platform) None db_after_one_vote "1");
    reflexivity.
Qed.

End Runs.

(** * The further properties at concrete inputs *)

Section MoreRuns.

#[local] Existing Instance example_platform.

Lemma db0_consistent : consistent db0.
Proof.
  unfold consistent. cbn.
  repeat split; try constructor; intros x [].
Qed.

Lemma calm_reaches_ledger_write :
  reaches_ledger_write calm db0 (ballot 1 1).
Proof.
  repeat split.
  - exists presidential, []. split; reflexivity.
  - exists boladra, []. repeat split.
Qed.

Lemma consistency_witness :
  consistent (snd (submitVote calm db0 (ballot 1 1))).
Proof.
  apply (submitVote_keeps_consistency (platform := example_platform)
           calm db0 (ballot 1 1)).
  exact db0_consistent.
Defined.

Lemma valid_ballot_witness :
  blockchain_transactions (snd (submitVote calm db0 (ballot 1 1)))
  = blockchain_transactions db0 ++ [ledger_row calm db0 (ballot 1 1)]
  /\ missing_required (ballot 1 1) = false.
Proof.
  destruct (ledger_row_only_for_valid_ballot (platform := example_platform)
              calm db0 (ballot 1 1))
    as (Hrow & Hfields & _).
  - vm_compute. discriminate.
  - split; assumption.
Defined.

Lemma success_rows_witness :
  exists v,
    votes (snd (submitVote calm db0 (ballot 1 1))) = votes db0 ++ [v]
    /\ v_voter_id v = "ANON_323035314636"
    /\ v_transaction_id v = 1.
Proof.
  edestruct (success_answer_has_its_rows (platform := example_platform)
               calm db0 (ballot 1 1))
    as (v & _ & Hvotes & _ & _ & _ & _ & _ & Hback & _ & _ & _ & Hvoter).
  - vm_compute. reflexivity.
  - exists v. repeat split; assumption.
Defined.

Lemma ledger_failure_witness :
  blockchain_transactions (snd (submitVote ledger_down db0 (ballot 1 1)))
  = blockchain_transactions db0
  /\ votes (snd (submitVote ledger_down db0 (ballot 1 1))) = votes db0
  /\ exists detail,
       fst (submitVote ledger_down db0 (ballot 1 1))
       = Json 500 (ErrorBody "Transaction creation failed" detail).
Proof.
  destruct (ledger_failure_writes_no_row (platform := example_platform)
              ledger_down db0 (ballot 1 1) refused)
    as (Hledger & Hvotes & Hanswer & _).
  - exact calm_reaches_ledger_write.
  - reflexivity.
  - repeat split; assumption.
Defined.

Lemma vote_failure_witness :
  submitVote votes_down db0 (ballot 1 1)
  = (Json 500 (ErrorBody "Vote recording failed" None),
     with_ledger_row votes_down db0 (ballot 1 1)).
Proof.
  apply (vote_failure_leaves_ledger_row (platform := example_platform)
           votes_down db0 (ballot 1 1) refused);
    try reflexivity.
  exact calm_reaches_ledger_write.
Defined.

Lemma non_text_address_witness :
  submitVote calm db0 numbered_ballot
  = (UncaughtException "TypeError", with_ledger_row calm db0 numbered_ballot).
Proof.
  apply (non_text_address_stops_after_ledger_write
           (platform := example_platform) calm db0 numbered_ballot);
    try reflexivity.
  repeat split.
  - exists presidential, []. split; reflexivity.
  - exists boladra, []. repeat split.
Defined.

Lemma rejected_vote_witness :
  snd (submitVote calm db0 (ballot 2 3))
  = insert_audit_log db0 "voter" "VOTE_REJECTED" "election"
      (VoteRejectedDetails "not_started" "draft" 5000 6000 1500 (JNum 3)
         (JStr "0x71C7656EC7ab88b098defB751B7401B5f6d8976F")).
Proof.
  apply (proj1 (rejected_vote_is_logged (platform := example_platform)
                  calm db0 (ballot 2 3) council [] "not_started"
                  eq_refl eq_refl eq_refl eq_refl)).
  reflexivity.
Defined.

Lemma same_ballot_twice_witness :
  vote_recorded db0 (ballot 1 1) (submitVote calm db0 (ballot 1 1))
  /\ vote_recorded (snd (submitVote calm db0 (ballot 1 1))) (ballot 1 1)
       (submitVote later (snd (submitVote calm db0 (ballot 1 1)))
          (ballot 1 1)).
Proof.
  destruct (same_ballot_is_recorded_twice (platform := example_platform)
              calm later db0 (ballot 1 1) presidential boladra)
    as (Hfirst & Hsecond & _);
    try reflexivity; try (repeat split; fail); try (simpl; lia).
  split; assumption.
Defined.

Lemma hash_is_hex_witness :
  exists digits,
    transactionHashOf (randomBytes 31 (fun _ => x2a))
    = ("0x" ++ digits)%string
    /\ String.length digits = 62%nat
    /\ HexText.all_chars HexText.is_hex_digit digits = true.
Proof.
  apply (transaction_hash_is_hex (randomBytes 31 (fun _ => x2a))).
  reflexivity.
Defined.

Lemma hash_injective_witness :
  randomBytes 31 (fun _ => x2a)
  = map (fun _ => x2a) (seq 0 31).
Proof.
  apply (transaction_hash_injective (randomBytes 31 (fun _ => x2a))
           (map (fun _ => x2a) (seq 0 31)));
    reflexivity.
Defined.

Lemma descending_witness :
  StronglySorted (fun a b => r_vote_count b <= r_vote_count a)
    (results_query db_after_one_vote (JStr "1")).
Proof.
  apply (results_by_descending_count (platform := example_platform)
           None db_after_one_vote "1" _ _ eq_refl).
Defined.

Lemma active_candidates_witness :
  List.length (results_query db_after_deactivation (JStr "1")) = 1%nat.
Proof.
  destruct (results_list_active_candidates (platform := example_platform)
              None db_after_deactivation "1" _ _ eq_refl)
    as (Hlen & _).
  exact Hlen.
Defined.

Lemma percentage_bounds_witness : 0 <= 5000 <= 10000.
Proof.
  apply (percentages_within_bounds (platform := example_platform)
           None db_after_deactivation "1" _ _
           {| r_id := 1; r_name := "Shubham Boladra";
              r_party := "Democratic Party"; r_photo_url := "";
              r_vote_count := 1; r_percentage := Some 5000 |}
           5000 eq_refl).
  - left. reflexivity.
  - reflexivity.
Defined.

Lemma unknown_election_results_witness :
  getResults None db0 "7" = Json 200 (ResultsBody 0 []).
Proof.
  apply (results_of_unknown_election (platform := example_platform) db0 "7").
  intros c [<- | [<- | [<- | []]]]; reflexivity.
Defined.

Lemma unverified_vote_witness :
  getResults None (add_vote db_after_one_vote pending_vote) "1"
  = getResults None db_after_one_vote "1".
Proof.
  apply (unverified_vote_is_not_tallied (platform := example_platform)
           None db_after_one_vote pending_vote "1").
  reflexivity.
Defined.


Lemma deactivation_row_witness :
  In {| r_id := 1; r_name := "Shubham Boladra";
        r_party := "Democratic Party"; r_photo_url := "";
        r_vote_count := 1; r_percentage := Some 10000 |}
    (results_query (snd (deleteCandidate None db_after_one_vote "2"))
       (JStr "1")).
Proof.
  apply (proj2 (deactivation_removes_only_its_row
                  (platform := example_platform)
                  db_after_one_vote "2" "1" _ _ _ _ eq_refl eq_refl _)).
  split; [left; reflexivity | reflexivity].
Defined.

Lemma deleted_election_witness :
  fst (deleteElection None db_with_referendum "3")
  = Json 200 (MessageBody "Election deleted successfully")
  /\ submitVote later db_after_one_vote (ballot 3 1)
     = (Json 404 (ErrorBody "Election not found" None), db_after_one_vote).
Proof.
  split; [reflexivity|].
  apply (no_vote_for_deleted_election (platform := example_platform)
           later None db_with_referendum db_after_one_vote (ballot 3 1) "3"
           eq_refl eq_refl eq_refl eq_refl eq_refl).
Defined.

Lemma placeholders_witness :
  count_char "?" "UPDATE elections SET status = ?, end_date = ? WHERE id = ?"
  = 3%nat.
Proof.
  apply (proj1 (patch_placeholders_match admin_env close_election
                  "UPDATE elections SET status = ?, end_date = ? WHERE id = ?"
                  [JStr "closed"; JNull; JStr "1"]
                  (or_introl eq_refl))).
Defined.

Lemma dashboard_order_witness :
  dashboard dashboard_run
  = [DashboardJson
       {| d_stats := Some (FirstRow (Some "totals"));
          d_recentActivity := Some (AllRows ["vote"; "login"]);
          d_systemHealth := Some (AllRows ["network_nodes"]) |}].
Proof.
  apply (dashboard_answers_once_in_any_order string
           ["totals"] ["vote"; "login"] ["network_nodes"] dashboard_run).
  unfold dashboard_run.
  eapply perm_trans; [apply perm_skip, perm_swap |].
  apply perm_swap.
Defined.

Lemma dashboard_failure_witness :
  dashboard dashboard_broken = [DashboardError]
  /\ dashboard_throws dashboard_broken = true.
Proof.
  apply (dashboard_failure_answers string dashboard_broken);
    reflexivity.
Defined.

Lemma vote_keys_distinct : NoDup (map v_id (votes db_after_deactivation)).
Proof.
  repeat constructor; simpl; intuition discriminate.
Qed.

Lemma election_counts_witness :
  election_counts db_after_deactivation presidential = (1, 2).
Proof.
  apply (election_counts_are_exact db_after_deactivation presidential).
  - exact candidate_keys_distinct.
  - exact vote_keys_distinct.
Defined.

End MoreRuns.
